(** * taskscheduler: command construction and result interpretation

    A shallow embedding of [src/taskscheduler/core.py]: the PowerShell
    command builders of [PythonTask], the mutation workflow that runs them
    against the host scheduler, and the normalisation and filtering done by
    [list_tasks].

    A Python [str] is modelled as a [string]: the bytes of its UTF-8
    encoding.  [lower], [strip] and the time pattern of [parse_time] act on
    ASCII letters, white space and digits; [isdigit] and [int] decode the
    text and follow Unicode's digit tables. *)

From Stdlib Require Import Ascii NArith ZArith Bool DecimalString DecimalZ DecimalPos.
From Stdlib Require Import SpecFloat.
From Stdlib Require String.
From stdpp Require Import base option list gmap strings.

Local Open Scope Z_scope.
#[local] Arguments String.append !s1 s2 : simpl nomatch.

(** ** Python string methods used by the module *)

Module PyStr.

(** The double-quote character, code 34. *)
Definition dq : ascii := ascii_of_nat 34.
(** The backslash, code 92, and the line feed, code 10. *)
Definition backslash : ascii := ascii_of_nat 92.
Definition nl : ascii := ascii_of_nat 10.

Definition char (c : ascii) : string := String c EmptyString.

(** [s.replace(old, new)] for a one-character [old]. *)
Fixpoint replace (old : ascii) (new : string) (s : string) : string :=
  match s with
  | EmptyString => EmptyString
  | String c r =>
      if Ascii.eqb c old then new +:+ replace old new r
      else String c (replace old new r)
  end.

(** [sep.join(parts)]. *)
Fixpoint join (sep : string) (parts : list string) : string :=
  match parts with
  | [] => EmptyString
  | [p] => p
  | p :: rest => p +:+ sep +:+ join sep rest
  end.

(** [s.startswith(p)]. *)
Fixpoint startswith (p s : string) : bool :=
  match p, s with
  | EmptyString, _ => true
  | String a p', String b s' => Ascii.eqb a b && startswith p' s'
  | String _ _, EmptyString => false
  end.

(** [sub in s]. *)
Fixpoint contains (sub s : string) : bool :=
  startswith sub s ||
  match s with
  | EmptyString => false
  | String _ s' => contains sub s'
  end.

(** [s.endswith(suffix)]: some tail of [s] is [suffix]. *)
Fixpoint endswith (suffix s : string) : bool :=
  String.eqb s suffix ||
  match s with
  | EmptyString => false
  | String _ s' => endswith suffix s'
  end.

Definition lower_char (c : ascii) : ascii :=
  let n := nat_of_ascii c in
  if (65 <=? n)%nat && (n <=? 90)%nat then ascii_of_nat (n + 32) else c.

(** [s.lower()]. *)
Fixpoint lower (s : string) : string :=
  match s with
  | EmptyString => EmptyString
  | String c r => String (lower_char c) (lower r)
  end.

Definition is_digit_char (c : ascii) : bool :=
  let n := nat_of_ascii c in (48 <=? n)%nat && (n <=? 57)%nat.

(** *** Digit characters

    [isdigit] and [int] see characters, not bytes: the text is decoded from
    UTF-8, and what counts as a digit is read from the tables of Unicode
    14.0, the version CPython 3.11 carries. *)

(** The six payload bits of a continuation byte. *)
Definition continuation_bits (c : ascii) : option N :=
  let n := N_of_ascii c in
  if (128 <=? n)%N && (n <? 192)%N then Some (n - 128)%N else None.

(** The code points of a text; [None] on bytes that are the encoding of no
    text (a stray or missing continuation byte, an overlong form, a
    surrogate, a value above U+10FFFF). *)
Fixpoint code_points (s : string) : option (list N) :=
  match s with
  | EmptyString => Some []
  | String a r =>
      let n := N_of_ascii a in
      if (n <? 128)%N then cons n <$> code_points r
      else if (n <? 192)%N then None
      else if (n <? 224)%N then
        match r with
        | String b r' =>
            x ← continuation_bits b;
            let c := ((n - 192) * 64 + x)%N in
            if (c <? 128)%N then None else cons c <$> code_points r'
        | _ => None
        end
      else if (n <? 240)%N then
        match r with
        | String b (String b' r') =>
            x ← continuation_bits b;
            y ← continuation_bits b';
            let c := (((n - 224) * 64 + x) * 64 + y)%N in
            if (c <? 2048)%N || ((55296 <=? c)%N && (c <=? 57343)%N) then None
            else cons c <$> code_points r'
        | _ => None
        end
      else if (n <? 248)%N then
        match r with
        | String b (String b' (String b'' r')) =>
            x ← continuation_bits b;
            y ← continuation_bits b';
            z ← continuation_bits b'';
            let c := ((((n - 240) * 64 + x) * 64 + y) * 64 + z)%N in
            if (c <? 65536)%N || (1114111 <? c)%N then None
            else cons c <$> code_points r'
        | _ => None
        end
      else None
  end.

(** The characters [str.isdigit] accepts, as ranges of code points: the
    decimal digits of every script and the other digit forms (superscripts,
    subscripts, circled and dotted digits). *)
Definition digit_characters : list (N * N) :=
  [ (48, 57); (178, 179); (185, 185); (1632, 1641); (1776, 1785);
    (1984, 1993); (2406, 2415); (2534, 2543); (2662, 2671); (2790, 2799);
    (2918, 2927); (3046, 3055); (3174, 3183); (3302, 3311); (3430, 3439);
    (3558, 3567); (3664, 3673); (3792, 3801); (3872, 3881); (4160, 4169);
    (4240, 4249); (4969, 4977); (6112, 6121); (6160, 6169); (6470, 6479);
    (6608, 6618); (6784, 6793); (6800, 6809); (6992, 7001); (7088, 7097);
    (7232, 7241); (7248, 7257); (8304, 8304); (8308, 8313); (8320, 8329);
    (9312, 9320); (9332, 9340); (9352, 9360); (9450, 9450); (9461, 9469);
    (9471, 9471); (10102, 10110); (10112, 10120); (10122, 10130);
    (42528, 42537); (43216, 43225); (43264, 43273); (43472, 43481);
    (43504, 43513); (43600, 43609); (44016, 44025); (65296, 65305);
    (66720, 66729); (68160, 68163); (68912, 68921); (69216, 69224);
    (69714, 69722); (69734, 69743); (69872, 69881); (69942, 69951);
    (70096, 70105); (70384, 70393); (70736, 70745); (70864, 70873);
    (71248, 71257); (71360, 71369); (71472, 71481); (71904, 71913);
    (72016, 72025); (72784, 72793); (73040, 73049); (73120, 73129);
    (92768, 92777); (92864, 92873); (93008, 93017); (120782, 120831);
    (123200, 123209); (123632, 123641); (125264, 125273); (127232, 127242);
    (130032, 130041) ]%N.

(** The decimal digits, the only digit characters [int] reads.  Every range
    starts at a zero and runs through whole sets of ten. *)
Definition decimal_characters : list (N * N) :=
  [ (48, 57); (1632, 1641); (1776, 1785); (1984, 1993); (2406, 2415);
    (2534, 2543); (2662, 2671); (2790, 2799); (2918, 2927); (3046, 3055);
    (3174, 3183); (3302, 3311); (3430, 3439); (3558, 3567); (3664, 3673);
    (3792, 3801); (3872, 3881); (4160, 4169); (4240, 4249); (6112, 6121);
    (6160, 6169); (6470, 6479); (6608, 6617); (6784, 6793); (6800, 6809);
    (6992, 7001); (7088, 7097); (7232, 7241); (7248, 7257); (42528, 42537);
    (43216, 43225); (43264, 43273); (43472, 43481); (43504, 43513);
    (43600, 43609); (44016, 44025); (65296, 65305); (66720, 66729);
    (68912, 68921); (69734, 69743); (69872, 69881); (69942, 69951);
    (70096, 70105); (70384, 70393); (70736, 70745); (70864, 70873);
    (71248, 71257); (71360, 71369); (71472, 71481); (71904, 71913);
    (72016, 72025); (72784, 72793); (73040, 73049); (73120, 73129);
    (92768, 92777); (92864, 92873); (93008, 93017); (120782, 120831);
    (123200, 123209); (123632, 123641); (125264, 125273);
    (130032, 130041) ]%N.

Definition within (c : N) (range : N * N) : bool :=
  (range.1 <=? c)%N && (c <=? range.2)%N.

(** [s.isdigit()]: non-empty and made of digit characters only. *)
Definition isdigit (s : string) : bool :=
  match code_points s with
  | Some (c :: l) => forallb (fun c => existsb (within c) digit_characters) (c :: l)
  | _ => false
  end.

(** The value of a decimal digit. *)
Definition decimal_value (c : N) : option Z :=
  range ← List.find (within c) decimal_characters;
  Some (Z.of_N ((c - range.1) mod 10)).

(** [sys.get_int_max_str_digits()], at its default. *)
Definition int_max_str_digits : Z := 4300.

(** [int(s)] on text that [isdigit] accepts; [None] when it raises
    [ValueError]: on a digit character that is no decimal digit, and on
    more digits than [int_max_str_digits]. *)
Definition int (s : string) : option Z :=
  l ← code_points s;
  ds ← mapM decimal_value l;
  if bool_decide (ds = []) || (int_max_str_digits <? Z.of_nat (length ds))
  then None
  else Some (foldl (fun acc d => 10 * acc + d) 0 ds).

(** [str(n)] for an integer: decimal digits, a leading minus sign when
    negative. *)
Definition str_int (n : Z) : string := NilZero.string_of_int (Z.to_int n).

Definition is_space (c : ascii) : bool :=
  let n := nat_of_ascii c in
  ((9 <=? n)%nat && (n <=? 13)%nat) || ((28 <=? n)%nat && (n <=? 32)%nat).

Fixpoint lstrip (s : string) : string :=
  match s with
  | EmptyString => EmptyString
  | String c r => if is_space c then lstrip r else s
  end.

Fixpoint rstrip (s : string) : string :=
  match s with
  | EmptyString => EmptyString
  | String c r =>
      match rstrip r with
      | EmptyString => if is_space c then EmptyString else char c
      | r' => String c r'
      end
  end.

(** [s.strip()]. *)
Definition strip (s : string) : string := rstrip (lstrip s).

End PyStr.

Import PyStr.

(** ** The quoting rule *)

(** [_quote_ps_arg]: wrap in double quotes, double the ones inside. *)
Definition _quote_ps_arg (value : string) : string :=
  char dq +:+ replace dq (char dq +:+ char dq) value +:+ char dq.

(** The source has the quoting direction only.  The reading direction below
    follows the specification's words for the inverse of the rule (strip the
    outer quotes, collapse each doubled quote).  [read_body] consumes the
    text after the opening quote: a doubled quote stands for one quote
    character, a single quote closes the literal.  It returns the value and
    the text left after the closing quote, or [None] when the literal is not
    closed. *)
Fixpoint read_body (s : string) : option (string * string) :=
  match s with
  | EmptyString => None
  | String c r =>
      if Ascii.eqb c dq then
        match r with
        | String c' r' =>
            if Ascii.eqb c' dq
            then prod_map (String dq) id <$> read_body r'
            else Some (EmptyString, r)
        | EmptyString => Some (EmptyString, EmptyString)
        end
      else prod_map (String c) id <$> read_body r
  end.

Definition read_quoted (s : string) : option (string * string) :=
  match s with
  | String c r => if Ascii.eqb c dq then read_body r else None
  | EmptyString => None
  end.

(** The inverse of the quoting rule: strip the outer quotes and collapse each
    doubled quote; [None] on text that is not one quoted literal. *)
Definition unquote_ps_arg (s : string) : option string :=
  match read_quoted s with
  | Some (v, EmptyString) => Some v
  | _ => None
  end.

(** ** Dates, times and their [strftime] renderings *)

(** [datetime.date]: year 1..9999, month 1..12, day 1..31. *)
Record date := { year : nat; month : nat; day : nat }.

(** [datetime.time]; only the fields that [%H:%M] prints. *)
Record time := { hour : nat; minute : nat }.

Inductive weekday :=
  | Monday | Tuesday | Wednesday | Thursday | Friday | Saturday | Sunday.

(** What one reading of [datetime.now()] gives the module: the calendar date
    and the day of the week. *)
Record datetime := { dt_date : date; dt_weekday : weekday }.

Definition digit (n : nat) : ascii := ascii_of_nat (48 + n mod 10).

(** Zero-padded fields, as [%H], [%M], [%m], [%d] (two digits) and [%Y]
    (four digits) print them. *)
Definition pad2 (n : nat) : string :=
  String (digit (n / 10)) (char (digit n)).
Definition pad4 (n : nat) : string :=
  String (digit (n / 1000)) (String (digit (n / 100)) (pad2 n)).

(** [d.strftime('%Y-%m-%d')]. *)
Definition strftime_Ymd (d : date) : string :=
  pad4 (year d) +:+ "-" +:+ pad2 (month d) +:+ "-" +:+ pad2 (day d).

(** [t.strftime('%H:%M')]. *)
Definition strftime_HM (t : time) : string :=
  pad2 (hour t) +:+ ":" +:+ pad2 (minute t).

(** [now.strftime('%A')]: the weekday's full name. *)
Definition strftime_A (n : datetime) : string :=
  match dt_weekday n with
  | Monday => "Monday" | Tuesday => "Tuesday" | Wednesday => "Wednesday"
  | Thursday => "Thursday" | Friday => "Friday" | Saturday => "Saturday"
  | Sunday => "Sunday"
  end.

(** ** The task specification *)

(** [at: Union[str, time]]. *)
Inductive at_value :=
  | AtTime (t : time)
  | AtStr (s : string).

(** [on: Optional[Union[date, Iterable[str]]]]. *)
Inductive on_value :=
  | OnNone
  | OnDate (d : date)
  | OnDays (days : list string).

(** The dataclass [PythonTask].  [frequency] is annotated with the literal
    type of three names and holds a plain [str] at run time. *)
Record PythonTask := {
  name : string;
  script : string;
  python : string;
  args : option (list string);
  frequency : string;
  at_ : at_value;
  on : on_value;
  description : string;
  user : option string;
  password : option string;
}.

(** Truth value of an optional string in a condition: [None] and the empty
    string are false. *)
Definition truthy (o : option string) : bool :=
  match o with
  | Some (String _ _) => true
  | _ => false
  end.

(** Truth value of [self.on] in a condition: [None] and an empty collection
    are false, a date is true. *)
Definition on_truthy (o : on_value) : bool :=
  match o with
  | OnNone => false
  | OnDate _ => true
  | OnDays [] => false
  | OnDays (_ :: _) => true
  end.

Definition with_on (o : on_value) (t : PythonTask) : PythonTask :=
  {| name := name t; script := script t; python := python t; args := args t;
     frequency := frequency t; at_ := at_ t; on := o;
     description := description t; user := user t; password := password t |}.

(** ** The command builders *)

(** The normalised time of day, [at_str] in [_build_trigger]. *)
Definition at_str (a : at_value) : string :=
  match a with
  | AtTime t => strftime_HM t
  | AtStr s => s
  end.

Section Builders.

(** [_to_path_str] resolves a path against the file system
    ([Path.expanduser().resolve()]); the builders only pass its result on. *)
Variable _to_path_str : string -> string.

(** The clock reading [datetime.now()] of the call. *)
Variable now : datetime.

Definition _build_action (self : PythonTask) : string :=
  let py := _to_path_str (python self) in
  let script := _to_path_str (script self) in
  let arg_parts :=
    [script] ++ match args self with
                | Some (a :: l) => a :: l
                | _ => []
                end in
  let ps_args := join " " (_quote_ps_arg <$> arg_parts) in
  "$action = New-ScheduledTaskAction -Execute " +:+ _quote_ps_arg py
    +:+ " -Argument " +:+ ps_args.

Definition _build_trigger (self : PythonTask) : string :=
  let at_str := at_str (at_ self) in
  let freq := frequency self in
  if String.eqb freq "Once" then
    let run_date :=
      match on self with
      | OnDate d => d
      | _ => dt_date now
      end in
    let dt_str := strftime_Ymd run_date +:+ " " +:+ at_str in
    "$trigger = New-ScheduledTaskTrigger -Once -At (Get-Date "
      +:+ _quote_ps_arg dt_str +:+ ")"
  else if String.eqb freq "Weekly" then
    let days : option string :=
      if on_truthy (on self) then
        match on self with
        | OnDays l => Some (join "," l)
        | _ => None
        end
      else None in
    let days :=
      match days with
      | Some (String c r) => String c r
      | _ => strftime_A now
      end in
    "$trigger = New-ScheduledTaskTrigger -Weekly -DaysOfWeek " +:+ days
      +:+ " -At " +:+ at_str
  else
    "$trigger = New-ScheduledTaskTrigger -Daily -At " +:+ at_str.

Definition _build_register (self : PythonTask) : string :=
  let desc := _quote_ps_arg (description self) in
  let name := _quote_ps_arg (name self) in
  let base :=
    "$description = " +:+ desc +:+ "; $taskName = " +:+ name +:+ "; "
      +:+ _build_action self +:+ "; " +:+ _build_trigger self +:+ "; " in
  if truthy (user self) && truthy (password self) then
    let user_q := _quote_ps_arg (default "" (user self)) in
    let pass_q := _quote_ps_arg (default "" (password self)) in
    base
      +:+ "Register-ScheduledTask -TaskName $taskName -Description $description "
      +:+ "-Action $action -Trigger $trigger -User "
      +:+ user_q +:+ " -Password " +:+ pass_q +:+ " | Out-Null"
  else if truthy (user self) then
    let user_q := _quote_ps_arg (default "" (user self)) in
    base
      +:+ "Register-ScheduledTask -TaskName $taskName -Description $description "
      +:+ "-Action $action -Trigger $trigger -User " +:+ user_q +:+ " | Out-Null"
  else
    base
      +:+ "Register-ScheduledTask -TaskName $taskName -Description $description -Action $action -Trigger $trigger | Out-Null".

(** The single-command scripts of the other operations. *)
Definition exists_script (task_name : string) : string :=
  "$ErrorActionPreference='SilentlyContinue'; Get-ScheduledTask -TaskName "
    +:+ _quote_ps_arg task_name +:+ " | Out-Null; "
    +:+ "if ($?) { exit 0 } else { exit 1 }".

Definition delete_script (task_name : string) : string :=
  "Unregister-ScheduledTask -TaskName " +:+ _quote_ps_arg task_name
    +:+ " -Confirm:$false".

Definition run_script (task_name : string) : string :=
  "Start-ScheduledTask -TaskName " +:+ _quote_ps_arg task_name.

Definition enable_script (task_name : string) : string :=
  "Enable-ScheduledTask -TaskName " +:+ _quote_ps_arg task_name.

Definition disable_script (task_name : string) : string :=
  "Disable-ScheduledTask -TaskName " +:+ _quote_ps_arg task_name.

Definition stop_script (task_name : string) : string :=
  "Stop-ScheduledTask -TaskName " +:+ _quote_ps_arg task_name
    +:+ " -Confirm:$false".

End Builders.

(** ** Running a script on the host scheduler *)

(** [subprocess.CompletedProcess], as [_run_powershell] returns it. *)
Record CompletedProcess := {
  returncode : Z;
  stdout : string;
  stderr : string;
}.

(** The module's exceptions, each with its message. *)
Inductive exn :=
  | TaskError (msg : string)
  | TaskAlreadyExistsError (msg : string)
  | TaskNotFoundError (msg : string).

(** How a call ends: it returns a value or raises. *)
Inductive outcome (A : Type) :=
  | Returns (a : A)
  | Raises (e : exn).
Arguments Returns {A} a.
Arguments Raises {A} e.

(** The world a method runs in: the host scheduler's state and the scripts
    handed to [powershell.exe] so far, oldest first. *)
Record World (Host : Type) := {
  host : Host;
  issued : list string;
}.
Arguments host {Host} w.
Arguments issued {Host} w.

(** Methods thread the world and may raise. *)
Definition PS (Host A : Type) : Type := World Host -> outcome A * World Host.

Definition ret {Host A} (a : A) : PS Host A := fun w => (Returns a, w).

Definition raise {Host A} (e : exn) : PS Host A := fun w => (Raises e, w).

Definition bind {Host A B} (m : PS Host A) (k : A -> PS Host B) : PS Host B :=
  fun w =>
    match m w with
    | (Returns a, w') => k a w'
    | (Raises e, w') => (Raises e, w')
    end.

Declare Scope ps_scope.
Delimit Scope ps_scope with ps.
Notation "x <- m ;; k" := (bind m (fun x => k))
  (at level 100, m at next level, right associativity) : ps_scope.
Notation "m ;; k" := (bind m (fun _ => k))
  (at level 100, right associativity) : ps_scope.

(** The text after the colon of the "Failed to ..." messages:
    [\n{res.stderr.strip()}\n{res.stdout.strip()}]. *)
Definition diagnostics (res : CompletedProcess) : string :=
  char nl +:+ strip (stderr res) +:+ char nl +:+ strip (stdout res).

Section Workflow.

Variable Host : Type.

(** One run of [powershell.exe -NoProfile -ExecutionPolicy Bypass -Command
    script] against the host: the completed process and the host afterwards.
    [check=False]: a non-zero exit code is returned, not raised. *)
Variable powershell : string -> Host -> CompletedProcess * Host.

Variable _to_path_str : string -> string.
Variable now : datetime.

Local Open Scope ps_scope.

Definition _run_powershell (script : string) : PS Host CompletedProcess :=
  fun w =>
    let '(res, h) := powershell script (host w) in
    (Returns res, {| host := h; issued := issued w ++ [script] |}).

(** [PythonTask.exists]. *)
Definition exists_ (self : PythonTask) : PS Host bool :=
  let script := exists_script (name self) in
  res <- _run_powershell script ;;
  ret (returncode res =? 0).

(** [PythonTask.delete]. *)
Definition delete (self : PythonTask) : PS Host unit :=
  present <- exists_ self ;;
  if negb present then
    raise (TaskNotFoundError ("Task '" +:+ name self +:+ "' not found"))
  else
    let script := delete_script (name self) in
    res <- _run_powershell script ;;
    if negb (returncode res =? 0) then
      raise (TaskError ("Failed to delete task '" +:+ name self +:+ "':"
                          +:+ diagnostics res))
    else ret tt.

(** [PythonTask.create]. *)
Definition create (self : PythonTask) (overwrite : bool) : PS Host unit :=
  present <- exists_ self ;;
  (if present then
     if negb overwrite then
       raise (TaskAlreadyExistsError
                ("Task '" +:+ name self +:+ "' already exists"))
     else delete self
   else ret tt) ;;
  let script := _build_register _to_path_str now self in
  res <- _run_powershell script ;;
  if negb (returncode res =? 0) then
    raise (TaskError ("Failed to register task '" +:+ name self +:+ "':"
                        +:+ diagnostics res))
  else ret tt.

(** [PythonTask.run]. *)
Definition run (self : PythonTask) : PS Host unit :=
  present <- exists_ self ;;
  if negb present then
    raise (TaskNotFoundError ("Task '" +:+ name self +:+ "' not found"))
  else
    let script := run_script (name self) in
    res <- _run_powershell script ;;
    if negb (returncode res =? 0) then
      raise (TaskError ("Failed to start task '" +:+ name self +:+ "':"
                          +:+ diagnostics res))
    else ret tt.

(** [PythonTask.enable]. *)
Definition enable (self : PythonTask) : PS Host unit :=
  let script := enable_script (name self) in
  res <- _run_powershell script ;;
  if negb (returncode res =? 0) then
    raise (TaskError ("Failed to enable task '" +:+ name self +:+ "':"
                        +:+ diagnostics res))
  else ret tt.

(** [PythonTask.disable]. *)
Definition disable (self : PythonTask) : PS Host unit :=
  let script := disable_script (name self) in
  res <- _run_powershell script ;;
  if negb (returncode res =? 0) then
    raise (TaskError ("Failed to disable task '" +:+ name self +:+ "':"
                        +:+ diagnostics res))
  else ret tt.

(** [PythonTask.stop]. *)
Definition stop (self : PythonTask) : PS Host unit :=
  let script := stop_script (name self) in
  res <- _run_powershell script ;;
  if negb (returncode res =? 0) then
    raise (TaskError ("Failed to stop task '" +:+ name self +:+ "':"
                        +:+ diagnostics res))
  else ret tt.

End Workflow.

Arguments _run_powershell {Host} powershell script w.
Arguments exists_ {Host} powershell self w.
Arguments delete {Host} powershell self w.
Arguments create {Host} powershell _to_path_str now self overwrite w.
Arguments run {Host} powershell self w.
Arguments enable {Host} powershell self w.
Arguments disable {Host} powershell self w.
Arguments stop {Host} powershell self w.

(** ** The listing interpreter *)

(** A scalar field of a decoded record, as the two mappers can meet it:
    JSON null, a boolean, an integer, a float or a string.  A float is the
    binary number together with the text [str] prints for it; an integer is
    one that [str] prints (for [json.loads] to return it, its decimal text
    had to be within [int_max_str_digits]).  The enumeration script writes
    scalars in the two fields; a list or a dict there, which a dict lookup
    refuses as unhashable, is not modelled. *)
Inductive py_value :=
  | PyNone
  | PyBool (b : bool)
  | PyInt (n : Z)
  | PyFloat (f : spec_float) (repr : string)
  | PyStr (s : string).

Global Instance spec_float_eq_dec : EqDecision spec_float.
Proof. solve_decision. Defined.

Global Instance py_value_eq_dec : EqDecision py_value.
Proof. solve_decision. Defined.

Definition spec_float_encode (f : spec_float)
    : bool + bool + unit + bool * positive * Z :=
  match f with
  | S754_zero s => inl (inl (inl s))
  | S754_infinity s => inl (inl (inr s))
  | S754_nan => inl (inr tt)
  | S754_finite s m e => inr (s, m, e)
  end.

Definition spec_float_decode (x : bool + bool + unit + bool * positive * Z)
    : spec_float :=
  match x with
  | inl (inl (inl s)) => S754_zero s
  | inl (inl (inr s)) => S754_infinity s
  | inl (inr _) => S754_nan
  | inr (s, m, e) => S754_finite s m e
  end.

Global Instance spec_float_countable : Countable spec_float.
Proof.
  apply (inj_countable' spec_float_encode spec_float_decode).
  intros []; reflexivity.
Defined.

Definition py_value_encode (v : py_value)
    : unit + bool + Z + spec_float * string + string :=
  match v with
  | PyNone => inl (inl (inl (inl tt)))
  | PyBool b => inl (inl (inl (inr b)))
  | PyInt n => inl (inl (inr n))
  | PyFloat f repr => inl (inr (f, repr))
  | PyStr s => inr s
  end.

Definition py_value_decode
    (x : unit + bool + Z + spec_float * string + string) : py_value :=
  match x with
  | inl (inl (inl (inl _))) => PyNone
  | inl (inl (inl (inr b))) => PyBool b
  | inl (inl (inr n)) => PyInt n
  | inl (inr (f, repr)) => PyFloat f repr
  | inr s => PyStr s
  end.

Global Instance py_value_countable : Countable py_value.
Proof.
  apply (inj_countable' py_value_encode py_value_decode).
  intros []; reflexivity.
Defined.

(** [str(v)]. *)
Definition str (v : py_value) : string :=
  match v with
  | PyNone => "None"
  | PyBool b => if b then "True" else "False"
  | PyInt n => str_int n
  | PyFloat _ repr => repr
  | PyStr s => s
  end.

(** The integer a float is equal to, when there is one: the sign [s] (set
    for a negative number), the mantissa [m] and the exponent [e] stand for
    [m * 2 ^ e]. *)
Definition float_integer (f : spec_float) : option Z :=
  match f with
  | S754_zero _ => Some 0
  | S754_finite s m e =>
      let magnitude :=
        if 0 <=? e then Some (Z.pos m * 2 ^ e)
        else if Z.pos m mod 2 ^ (- e) =? 0 then Some (Z.pos m / 2 ^ (- e))
        else None in
      (fun n => if s then - n else n) <$> magnitude
  | S754_infinity _ | S754_nan => None
  end.

(** The key a dict looks a value up by.  Keys are found by hash and [==],
    and numbers that are equal are one key: [True] is [1], [False] is [0],
    and a float with an integer value is that integer. *)
Definition dict_key (v : py_value) : py_value :=
  match v with
  | PyBool b => PyInt (Z.b2z b)
  | PyFloat f _ =>
      match float_integer f with
      | Some n => PyInt n
      | None => v
      end
  | _ => v
  end.

(** A string given by its byte codes: the labels' non-ASCII prefixes, as the
    source file stores them. *)
Definition bytes (codes : list nat) : string :=
  foldr (fun n s => String (ascii_of_nat n) s) EmptyString codes.

Definition label_ready : string :=
  bytes [195; 176; 197; 184; 197; 184; 194; 162]%nat +:+ " Ready".
Definition label_running : string :=
  bytes [195; 162; 226; 128; 147; 194; 182; 195; 175; 194; 184]%nat +:+ " Running".
Definition label_disabled : string :=
  bytes [195; 176; 197; 184; 197; 184; 194; 161]%nat +:+ " Disabled".
Definition label_queued : string :=
  bytes [195; 162; 194; 179]%nat +:+ " Queued".
Definition label_unknown : string :=
  bytes [195; 162; 226; 128; 156]%nat +:+ " Unknown".

(** The five labels a status is normalised to. *)
Definition status_labels : list string :=
  [label_ready; label_running; label_disabled; label_queued; label_unknown].

(** [mapping] of [map_status]: a dict keyed by strings and by integers. *)
Definition mapping : gmap py_value string :=
  list_to_map [
    (PyStr "Ready", label_ready);
    (PyStr "Running", label_running);
    (PyStr "Disabled", label_disabled);
    (PyStr "Queued", label_queued);
    (PyStr "Unknown", label_unknown);
    (PyInt 0, label_unknown);
    (PyInt 1, label_disabled);
    (PyInt 2, label_queued);
    (PyInt 3, label_ready);
    (PyInt 4, label_running)
  ].

(** [map_status].  The [try] block turns a string of digits into the
    integer; when [int] raises, the [except] branch keeps the string. *)
Definition map_status (s : py_value) : string :=
  let s_val :=
    match s with
    | PyStr x =>
        if isdigit x then
          match int x with
          | Some n => PyInt n
          | None => s
          end
        else s
    | _ => s
    end in
  default (str s) (mapping !! dict_key s_val).

(** [known] of [map_result]. *)
Definition known : gmap py_value string :=
  list_to_map [
    (PyInt 0, "Succeeded");
    (PyInt 267009, "Running");
    (PyInt 267008, "Queued");
    (PyInt 267011, "Not executed yet");
    (PyInt 267002, "Disabled");
    (PyInt 267010, "Ready");
    (PyInt 267000, "No more runs")
  ].

(** [map_result].  [code_int] is [None] where the function has returned
    [str(code)] already: from the [else] branch, or from the [except] branch
    when [int] raises.  A boolean is an instance of [int] and is kept as it
    is, so the text after [Code] is its own. *)
Definition map_result (code : py_value) : string :=
  let code_int :=
    match code with
    | PyStr x => if isdigit x then PyInt <$> int x else None
    | PyInt _ | PyBool _ => Some code
    | PyFloat _ _ | PyNone => None
    end in
  match code_int with
  | Some code_int => default ("Code " +:+ str code_int) (known !! dict_key code_int)
  | None => str code
  end.

(** One entry of a record's [Actions]; a field is [None] when the payload
    has null there. *)
Record Action := {
  Command : option string;
  Arguments : option string;
  WorkingDirectory : option string;
}.

(** One record of the enumeration payload. *)
Record TaskItem := {
  Name : option string;
  Status : py_value;
  NextRunTime : option string;
  LastRunTime : option string;
  LastRunResult : py_value;
  Author : option string;
  Created : option string;
  Description : option string;
  Triggers : option string;
  Actions : list Action;
}.

(** [str(x or "")] on an optional string. *)
Definition str_or_empty (x : option string) : string := default "" x.

Definition _is_python_action (act : Action) : bool :=
  let cmd := lower (str_or_empty (Command act)) in
  let args := lower (str_or_empty (Arguments act)) in
  endswith "python.exe" cmd
  || contains (String backslash "python") cmd
  || contains "/python" cmd
  || endswith ".py" args
  || contains ".py " args.

Section Filters.

(** The keyword arguments of [list_tasks]. *)
Variable only_python : bool.
Variable author : option string.
Variable name_contains : option string.

Definition _passes_filters (item : TaskItem) : bool :=
  if truthy author
     && negb (String.eqb (lower (str_or_empty (Author item)))
                         (lower (str_or_empty author)))
  then false
  else if truthy name_contains
          && negb (contains (lower (str_or_empty name_contains))
                            (lower (str_or_empty (Name item))))
  then false
  else if only_python && negb (existsb _is_python_action (Actions item))
  then false
  else true.

(** The two assignments of the normalising loop. *)
Definition normalise (it : TaskItem) : TaskItem :=
  {| Name := Name it;
     Status := PyStr (map_status (Status it));
     NextRunTime := NextRunTime it;
     LastRunTime := LastRunTime it;
     LastRunResult := PyStr (map_result (LastRunResult it));
     Author := Author it;
     Created := Created it;
     Description := Description it;
     Triggers := Triggers it;
     Actions := Actions it |}.

(** [list_tasks] from the decoded payload on: normalise, then filter. *)
Definition list_tasks_of (data : list TaskItem) : list TaskItem :=
  List.filter _passes_filters (normalise <$> data).

End Filters.

(** ** A reference host *)

(** The host scheduler is outside the repository.  This stand-in keeps the
    set of registered task names and answers the scripts of this module: it
    reads the command word and the quoted task name back from the script
    text.  The properties that depend on a host are stated for every host
    and run on this one. *)

Fixpoint strip_prefix (p s : string) : option string :=
  match p, s with
  | EmptyString, _ => Some s
  | String a p', String b s' => if Ascii.eqb a b then strip_prefix p' s' else None
  | String _ _, EmptyString => None
  end.

(** The task name of [verb "name" ...]. *)
Definition named_command (verb script : string) : option string :=
  rest ← strip_prefix verb script; fst <$> read_quoted rest.

(** The task name of a registration script:
    [$description = "..."; $taskName = "name"; ...]. *)
Definition registered_name (script : string) : option string :=
  rest ← strip_prefix "$description = " script;
  '(_, rest) ← read_quoted rest;
  rest ← strip_prefix "; $taskName = " rest;
  fst <$> read_quoted rest.

Definition exit_with (code : Z) (err : string) : CompletedProcess :=
  {| returncode := code; stdout := ""; stderr := err |}.

Definition acts_on_existing (script : string) : option string :=
  named_command "Start-ScheduledTask -TaskName " script
  ∪ named_command "Enable-ScheduledTask -TaskName " script
  ∪ named_command "Disable-ScheduledTask -TaskName " script
  ∪ named_command "Stop-ScheduledTask -TaskName " script.

Definition sim_powershell (script : string) (reg : gset string)
  : CompletedProcess * gset string :=
  match named_command
          "$ErrorActionPreference='SilentlyContinue'; Get-ScheduledTask -TaskName "
          script with
  | Some n => (exit_with (if decide (n ∈ reg) then 0 else 1) "", reg)
  | None =>
  match named_command "Unregister-ScheduledTask -TaskName " script with
  | Some n =>
      if decide (n ∈ reg) then (exit_with 0 "", reg ∖ {[ n ]})
      else (exit_with 1 "No task of that name", reg)
  | None =>
  match acts_on_existing script with
  | Some n =>
      if decide (n ∈ reg) then (exit_with 0 "", reg)
      else (exit_with 1 "No task of that name", reg)
  | None =>
  match registered_name script with
  | Some n =>
      if decide (n ∈ reg) then (exit_with 1 "The task exists already", reg)
      else (exit_with 0 "", reg ∪ {[ n ]})
  | None => (exit_with 1 "Not a scheduler command", reg)
  end end end end.

(** The host's ground truth about one name: Present or Absent. *)
Definition sim_present (n : string) (reg : gset string) : bool :=
  bool_decide (n ∈ reg).

(** A resolver for paths that are absolute already. *)
Definition resolved (p : string) : string := p.

(** ** The module-level operations *)

Section ModuleFunctions.

Variable Host : Type.
Variable powershell : string -> Host -> CompletedProcess * Host.

Local Open Scope ps_scope.

(** [run_task]. *)
Definition run_task (task_name : string) : PS Host unit :=
  let script := run_script task_name in
  res <- _run_powershell powershell script ;;
  if negb (returncode res =? 0) then
    raise (TaskError ("Failed to start task '" +:+ task_name +:+ "':"
                        +:+ diagnostics res))
  else ret tt.

(** [enable_task]. *)
Definition enable_task (task_name : string) : PS Host unit :=
  let script := enable_script task_name in
  res <- _run_powershell powershell script ;;
  if negb (returncode res =? 0) then
    raise (TaskError ("Failed to enable task '" +:+ task_name +:+ "':"
                        +:+ diagnostics res))
  else ret tt.

(** [disable_task]. *)
Definition disable_task (task_name : string) : PS Host unit :=
  let script := disable_script task_name in
  res <- _run_powershell powershell script ;;
  if negb (returncode res =? 0) then
    raise (TaskError ("Failed to disable task '" +:+ task_name +:+ "':"
                        +:+ diagnostics res))
  else ret tt.

(** [stop_task]. *)
Definition stop_task (task_name : string) : PS Host unit :=
  let script := stop_script task_name in
  res <- _run_powershell powershell script ;;
  if negb (returncode res =? 0) then
    raise (TaskError ("Failed to stop task '" +:+ task_name +:+ "':"
                        +:+ diagnostics res))
  else ret tt.

(** [delete_task]. *)
Definition delete_task (task_name : string) : PS Host unit :=
  let script := delete_script task_name in
  res <- _run_powershell powershell script ;;
  if negb (returncode res =? 0) then
    raise (TaskError ("Failed to delete task '" +:+ task_name +:+ "':"
                        +:+ diagnostics res))
  else ret tt.

End ModuleFunctions.

Arguments run_task {Host} powershell task_name w.
Arguments enable_task {Host} powershell task_name w.
Arguments disable_task {Host} powershell task_name w.
Arguments stop_task {Host} powershell task_name w.
Arguments delete_task {Host} powershell task_name w.

(** ** [list_tasks] and [list_python_tasks] *)

(** What [json.loads] gives on the enumeration output: one record (a dict)
    or a list of records. *)
Inductive payload :=
  | OneRecord (it : TaskItem)
  | Records (its : list TaskItem).

(** How [list_tasks] ends: with the listing, with one of the module's
    exceptions, or with the decoder's own error. *)
Inductive listing :=
  | Listed (records : list TaskItem)
  | ListingRaised (e : exn)
  | DecodeError.

(** The keyword arguments given to [list_python_tasks]; a key that is not
    given is [None]. *)
Record list_kwargs := {
  kw_only_python : option bool;
  kw_author : option string;
  kw_name_contains : option string;
}.

Section Listing.

Variable Host : Type.
Variable powershell : string -> Host -> CompletedProcess * Host.

(** The enumeration script [ps], a constant text of the source that only the
    host reads. *)
Variable enumeration_script : string.

(** [json.loads]; [None] when it raises. *)
Variable json_loads : string -> option payload.

Definition list_tasks (only_python : bool) (author name_contains : option string)
    (w : World Host) : listing * World Host :=
  match _run_powershell powershell enumeration_script w with
  | (Raises e, w') => (ListingRaised e, w')
  | (Returns res, w') =>
      if negb (returncode res =? 0) then
        (ListingRaised
           (TaskError ("Failed to list tasks: " +:+ strip (stderr res)
                         +:+ char nl +:+ strip (stdout res))), w')
      else
        let txt := strip (stdout res) in
        match txt with
        | EmptyString => (Listed [], w')
        | String _ _ =>
            match json_loads txt with
            | None => (DecodeError, w')
            | Some data =>
                let data :=
                  match data with
                  | OneRecord it => [it]
                  | Records its => its
                  end in
                (Listed (list_tasks_of only_python author name_contains data),
                 w')
            end
        end
  end.

(** [list_python_tasks]: the caller's [only_python] is dropped. *)
Definition list_python_tasks (kwargs : list_kwargs) (w : World Host)
    : listing * World Host :=
  list_tasks true (kw_author kwargs) (kw_name_contains kwargs) w.

End Listing.

Arguments list_tasks {Host} powershell enumeration_script json_loads
  only_python author name_contains w.
Arguments list_python_tasks {Host} powershell enumeration_script json_loads
  kwargs w.

(** ** The command line ([__main__]) *)

(** One or two digits with a value up to [bound]: the fields [%H] (up to 23)
    and [%M] (up to 59) as [strptime] reads them. *)
Definition strptime_field (bound : nat) (s : string) : option nat :=
  match s with
  | String a EmptyString =>
      if is_digit_char a then Some (nat_of_ascii a - 48)%nat else None
  | String a (String b EmptyString) =>
      if is_digit_char a && is_digit_char b then
        let n := ((nat_of_ascii a - 48) * 10 + (nat_of_ascii b - 48))%nat in
        if (n <=? bound)%nat then Some n else None
      else None
  | _ => None
  end.

(** The text up to the first colon and the text after it. *)
Fixpoint split_colon (s : string) : option (string * string) :=
  match s with
  | EmptyString => None
  | String c r =>
      if Ascii.eqb c ":" then Some (EmptyString, r)
      else prod_map (String c) id <$> split_colon r
  end.

(** [parse_time]: [datetime.strptime(value, "%H:%M").time()]; [None] when
    it raises [ValueError]. *)
Definition parse_time (value : string) : option time :=
  '(h, m) ← split_colon value;
  hh ← strptime_field 23 h;
  mm ← strptime_field 59 m;
  Some {| hour := hh; minute := mm |}.

(** The parsed arguments, by sub-command. *)
Inductive cli_args :=
  | CliAdd (task_name script python : string) (args : option (list string))
      (frequency : string) (at_text : string) (on_texts : option (list string))
      (description : string) (user password : option string)
      (overwrite : bool)
  | CliDelete (task_name : string)
  | CliRun (task_name : string)
  | CliExists (task_name : string).

(** [str(e)] of a module exception. *)
Definition exn_message (e : exn) : string :=
  match e with
  | TaskError msg | TaskAlreadyExistsError msg | TaskNotFoundError msg => msg
  end.

(** The task the sub-commands [delete], [run] and [exists] build: only its
    name matters to them. *)
Definition placeholder_task (task_name py : string) : PythonTask :=
  {| name := task_name; script := ""; python := py; args := None;
     frequency := "Daily"; at_ := AtTime {| hour := 12; minute := 0 |};
     on := OnNone; description := "Scheduled Python script";
     user := None; password := None |}.

Section CommandLine.

Variable Host : Type.
Variable powershell : string -> Host -> CompletedProcess * Host.
Variable _to_path_str : string -> string.
Variable now : datetime.

(** [sys.executable]. *)
Variable sys_executable : string.

(** [datetime.strptime(text, "%Y-%m-%d").date()]; [None] when it raises
    [ValueError]. *)
Variable strptime_date : string -> option date.

(** The text of the [ValueError] that [strptime] raises on a value and a
    format. *)
Variable value_error_text : string -> string -> string.

(** The value of [on] that [add] passes to [PythonTask]; [None] when the
    date does not parse. *)
Definition cli_on_value (frequency : string) (on_texts : option (list string))
    : option on_value :=
  if String.eqb frequency "Once" then
    match on_texts with
    | Some (d :: _) => OnDate <$> strptime_date d
    | _ => Some OnNone
    end
  else if String.eqb frequency "Weekly" then
    match on_texts with
    | Some (d :: l) => Some (OnDays (d :: l))
    | _ => Some OnNone
    end
  else Some OnNone.

(** [main] on parsed arguments: the exit code and the lines printed. *)
Definition main (a : cli_args) (w : World Host) : (Z * list string) * World Host :=
  match a with
  | CliAdd task_name script python args frequency at_text on_texts
      description user password overwrite =>
      match parse_time at_text with
      | None => ((2, [value_error_text at_text "%H:%M"]), w)
      | Some at_t =>
          match cli_on_value frequency on_texts with
          | None =>
              ((2, [value_error_text (hd "" (default [] on_texts)) "%Y-%m-%d"]),
               w)
          | Some on_val =>
              let task :=
                {| name := task_name; script := script; python := python;
                   args := match args with
                           | Some (x :: l) => Some (x :: l)
                           | _ => None
                           end;
                   frequency := frequency; at_ := AtTime at_t; on := on_val;
                   description := description; user := user;
                   password := password |} in
              match create powershell _to_path_str now task overwrite w with
              | (Returns _, w') =>
                  ((0, ["Task '" +:+ task_name +:+ "' created"]), w')
              | (Raises e, w') => ((2, [exn_message e]), w')
              end
          end
      end
  | CliDelete task_name =>
      match delete powershell (placeholder_task task_name sys_executable) w with
      | (Returns _, w') => ((0, ["Task '" +:+ task_name +:+ "' deleted"]), w')
      | (Raises e, w') => ((2, [exn_message e]), w')
      end
  | CliRun task_name =>
      match run powershell (placeholder_task task_name sys_executable) w with
      | (Returns _, w') => ((0, ["Task '" +:+ task_name +:+ "' started"]), w')
      | (Raises e, w') => ((2, [exn_message e]), w')
      end
  | CliExists task_name =>
      match exists_ powershell (placeholder_task task_name sys_executable) w with
      | (Returns exists_b, w') =>
          ((if exists_b then 0 else 1, [if exists_b then "yes" else "no"]), w')
      | (Raises e, w') => ((2, [exn_message e]), w')
      end
  end.

End CommandLine.

Arguments main {Host} powershell _to_path_str now sys_executable
  strptime_date value_error_text a w.

(** ** Starting the process

    The methods above take it that [subprocess.run] starts powershell.exe
    and hands back the completed process.  The call can also end with an
    exception before anything runs, and no method of the module catches it:
    [ValueError] when an argument holds a NUL character, and [OSError] when
    the process cannot be started ([FileNotFoundError] when there is no
    powershell.exe, or the system refusing the command line).  This section
    follows [exists], and the [exists] sub-command of [main], with those two
    ends in the picture. *)

(** The NUL character, code 0. *)
Definition nul : ascii := ascii_of_nat 0.

(** The built-in exceptions that leave [subprocess.run]. *)
Inductive builtin_exception :=
  | ValueError
  | OSError.

(** How a call ends: it returns a value, or the exception leaves it. *)
Inductive completion (A : Type) :=
  | Completes (a : A)
  | Propagates (e : builtin_exception).
Arguments Completes {A} a.
Arguments Propagates {A} e.

Module Start.

Section Start.

Variable Host : Type.

(** Whether the system starts powershell.exe on a script. *)
Variable powershell_starts : string -> bool.

Variable powershell : string -> Host -> CompletedProcess * Host.

(** [sys.executable], and [str(e)] of a built-in exception. *)
Variable sys_executable : string.
Variable exception_text : builtin_exception -> string.

(** [_run_powershell]: the script is the one argument that varies. *)
Definition _run_powershell (script : string) (w : World Host)
    : completion CompletedProcess * World Host :=
  if contains (char nul) script then (Propagates ValueError, w)
  else if negb (powershell_starts script) then (Propagates OSError, w)
  else
    let '(res, h) := powershell script (host w) in
    (Completes res, {| host := h; issued := issued w ++ [script] |}).

(** [PythonTask.exists]. *)
Definition exists_ (self : PythonTask) (w : World Host)
    : completion bool * World Host :=
  let script := exists_script (name self) in
  match _run_powershell script w with
  | (Completes res, w') => (Completes (returncode res =? 0), w')
  | (Propagates e, w') => (Propagates e, w')
  end.

(** The [exists] sub-command of [main]: the exit code and the lines
    printed.  The [except] clause of [main] names [TaskError] and
    [ValueError]. *)
Definition main_exists (task_name : string) (w : World Host)
    : completion (Z * list string) * World Host :=
  match exists_ (placeholder_task task_name sys_executable) w with
  | (Completes exists_b, w') =>
      (Completes (if exists_b then 0 else 1, [if exists_b then "yes" else "no"]),
       w')
  | (Propagates ValueError, w') =>
      (Completes (2, [exception_text ValueError]), w')
  | (Propagates OSError, w') => (Propagates OSError, w')
  end.

End Start.

Arguments _run_powershell {Host} powershell_starts powershell script w.
Arguments exists_ {Host} powershell_starts powershell self w.
Arguments main_exists {Host} powershell_starts powershell sys_executable
  exception_text task_name w.

End Start.

(** ** The task snapshot of the interface ([ui_app.get_tasks]) *)

(** The three keys of [st.session_state] that [get_tasks] reads and writes;
    a key that is not set reads as [None]. *)
Record session_state := {
  tasks_snapshot : option (list TaskItem);
  tasks_only_py : option bool;
  invalidate_tasks : option bool;
}.

Section Snapshot.

(** The world [load_tasks] runs in, and [load_tasks] itself (the cached
    [list_tasks] call); [None] when it raises. *)
Variable W : Type.
Variable load_tasks : bool -> W -> option (list TaskItem) * W.

(** [get_tasks]: the tasks returned ([None] when the load raises), the
    session state and the world afterwards. *)
Definition get_tasks (only_python : bool) (ss : session_state) (w : W)
    : option (list TaskItem) * session_state * W :=
  if bool_decide (tasks_snapshot ss = None)
     || negb (bool_decide (tasks_only_py ss = Some only_python))
     || bool_decide (invalidate_tasks ss = Some true)
  then
    match load_tasks only_python w with
    | (Some tasks, w') =>
        (Some tasks,
         {| tasks_snapshot := Some tasks;
            tasks_only_py := Some only_python;
            invalidate_tasks := Some false |},
         w')
    | (None, w') => (None, ss, w')
    end
  else (tasks_snapshot ss, ss, w).

End Snapshot.

Arguments get_tasks {W} load_tasks only_python ss w.

(** * Vocabulary of the properties *)

(** Text after a literal never begins with a quote character. *)
Definition no_leading_quote (rest : string) : Prop :=
  match rest with
  | String c _ => c <> dq
  | EmptyString => True
  end.

(** The frequency names of the annotation [Literal["Once", "Daily", "Weekly"]]. *)
Definition recognised_frequencies : list string := ["Once"; "Daily"; "Weekly"].

(** What every registration fragment starts with: the description, the task
    name, the action and the trigger. *)
Definition register_base (_to_path_str : string -> string) (now : datetime)
    (t : PythonTask) : string :=
  "$description = " +:+ _quote_ps_arg (description t)
    +:+ "; $taskName = " +:+ _quote_ps_arg (name t) +:+ "; "
    +:+ _build_action _to_path_str t +:+ "; " +:+ _build_trigger now t +:+ "; ".

(** The registration command up to its credentials. *)
Definition register_command : string :=
  "Register-ScheduledTask -TaskName $taskName -Description $description -Action $action -Trigger $trigger".

(** The run-as part, by the three cases of the specification. *)
Definition run_as (u p : option string) : string :=
  match u, p with
  | Some (String c u'), Some (String d p') =>
      " -User " +:+ _quote_ps_arg (String c u')
        +:+ " -Password " +:+ _quote_ps_arg (String d p')
  | Some (String c u'), _ => " -User " +:+ _quote_ps_arg (String c u')
  | _, _ => ""
  end.

(** The integer a status is looked up as: an integer; a boolean ([True] is
    1, [False] is 0); a float with an integer value; a string of digits that
    [int] reads. *)
Definition status_number (v : py_value) : option Z :=
  match v with
  | PyInt n => Some n
  | PyBool b => Some (Z.b2z b)
  | PyFloat f _ => float_integer f
  | PyStr x => if isdigit x then int x else None
  | PyNone => None
  end.

Definition canonical_status_names : list string :=
  ["Ready"; "Running"; "Disabled"; "Queued"; "Unknown"].

(** A status the table knows: one looked up as 0 to 4, or one of the five
    names. *)
Definition recognised_status (v : py_value) : Prop :=
  (exists n, status_number v = Some n /\ 0 <= n <= 4)
  \/ (exists x, v = PyStr x /\ x ∈ canonical_status_names).

(** What [str] prints for a float holds a point, an exponent, [inf] or
    [nan]: it is never a string of digits, nor a status name. *)
Definition float_text (v : py_value) : Prop :=
  match v with
  | PyFloat _ repr => isdigit repr = false /\ repr ∉ canonical_status_names
  | _ => True
  end.

(** The integer a last-run result stands for, when it is numeric: an
    integer, or a string of digits that [int] reads. *)
Definition numeric_value (v : py_value) : option Z :=
  match v with
  | PyInt n => Some n
  | PyStr x => if isdigit x then int x else None
  | PyNone | PyBool _ | PyFloat _ _ => None
  end.

(** An action launches Python when its lower-cased command ends in
    [python.exe] or has a path segment starting with [python] after a
    backslash or a slash, or its lower-cased arguments end in [.py] or hold
    [.py] followed by a space. *)
Definition python_related (act : Action) : Prop :=
  let cmd := lower (str_or_empty (Command act)) in
  let args := lower (str_or_empty (Arguments act)) in
  (exists p, cmd = p +:+ "python.exe")
  \/ (exists p r, cmd = p +:+ String backslash "python" +:+ r)
  \/ (exists p r, cmd = p +:+ "/python" +:+ r)
  \/ (exists p, args = p +:+ ".py")
  \/ (exists p r, args = p +:+ ".py " +:+ r).

Section HostContract.

Context {Host : Type}.
Variable powershell : string -> Host -> CompletedProcess * Host.
Variable _to_path_str : string -> string.
Variable now : datetime.

(** The host's own record of a name: Present ([true]) or Absent. *)
Variable present : string -> Host -> bool.

(** What the workflow expects of a host scheduler that no other actor
    touches meanwhile: the existence query reports the host's state and
    leaves it alone; unregistering a present task succeeds and removes it;
    registering an absent task succeeds and adds it. *)
Record scheduler_contract : Prop := {
  query_reports : forall n h,
    returncode (powershell (exists_script n) h).1 = 0 <-> present n h = true;
  query_keeps : forall n h,
    present n (powershell (exists_script n) h).2 = present n h;
  unregister_removes : forall n h,
    present n h = true ->
    returncode (powershell (delete_script n) h).1 = 0
    /\ present n (powershell (delete_script n) h).2 = false;
  register_adds : forall t h,
    present (name t) h = false ->
    returncode (powershell (_build_register _to_path_str now t) h).1 = 0
    /\ present (name t)
         (powershell (_build_register _to_path_str now t) h).2 = true;
}.

End HostContract.

Arguments query_reports {Host powershell _to_path_str now present} _ n h.
Arguments query_keeps {Host powershell _to_path_str now present} _ n h.
Arguments unregister_removes {Host powershell _to_path_str now present} _ n h _.
Arguments register_adds {Host powershell _to_path_str now present} _ t h _.

(** ** Example inputs *)

Definition tuesday_3_nov : datetime :=
  {| dt_date := {| year := 2026; month := 11; day := 3 |};
     dt_weekday := Tuesday |}.

(** Scenario A of the specification: a daily job at 02:30. *)
Definition nightly_backup : PythonTask :=
  {| name := "nightly-backup";
     script := "C:\jobs\backup.py";
     python := "C:\Python\python.exe";
     args := Some ["--x"; "1"];
     frequency := "Daily";
     at_ := AtTime {| hour := 2; minute := 30 |};
     on := OnNone;
     description := "Scheduled Python script";
     user := None;
     password := None |}.

Definition with_schedule (f : string) (a : at_value) (o : on_value)
    (t : PythonTask) : PythonTask :=
  {| name := name t; script := script t; python := python t; args := args t;
     frequency := f; at_ := a; on := o;
     description := description t; user := user t; password := password t |}.

Definition with_credentials (u p : option string) (t : PythonTask)
    : PythonTask :=
  {| name := name t; script := script t; python := python t; args := args t;
     frequency := frequency t; at_ := at_ t; on := on t;
     description := description t; user := u; password := p |}.

(** A task whose frequency is none of the three names. *)
Definition monthly_report : PythonTask :=
  with_schedule "Monthly" (AtTime {| hour := 12; minute := 0 |}) OnNone
    nightly_backup.

(** Tasks whose time or day list carry text after a semicolon. *)
Definition daily_with_payload : PythonTask :=
  with_schedule "Daily" (AtStr "12:00; Remove-Item C:\jobs") OnNone
    nightly_backup.

Definition weekly_with_payload : PythonTask :=
  with_schedule "Weekly" (AtTime {| hour := 2; minute := 30 |})
    (OnDays ["Monday"; "Friday; Remove-Item C:\jobs"]) nightly_backup.

(** A task that the reference host does not hold. *)
Definition ghost : PythonTask :=
  {| name := "ghost"; script := "C:\jobs\ghost.py";
     python := "C:\Python\python.exe"; args := None;
     frequency := "Daily"; at_ := AtTime {| hour := 12; minute := 0 |};
     on := OnNone; description := "Scheduled Python script";
     user := None; password := None |}.

Definition empty_host : World (gset string) := {| host := ∅; issued := [] |}.

(** The reference host with [nightly_backup] registered. *)
Definition host_with_backup : World (gset string) :=
  {| host := {[ "nightly-backup" ]}; issued := [] |}.

(** Scenario C of the specification. *)
Definition python_job : Action :=
  {| Command := Some "C:\Python\python.exe";
     Arguments := Some "job.py --x 1";
     WorkingDirectory := None |}.

Definition plain_program : Action :=
  {| Command := Some "C:\Tools\run.exe";
     Arguments := Some "run.exe";
     WorkingDirectory := None |}.

Definition item_with (acts : list Action) : TaskItem :=
  {| Name := Some "job"; Status := PyInt 3; NextRunTime := Some "";
     LastRunTime := Some ""; LastRunResult := PyInt 0;
     Author := Some "ops"; Created := None; Description := None;
     Triggers := Some "At 02:30 every day"; Actions := acts |}.

(** The code points of the digits of a decimal number, most significant
    first. *)
Fixpoint uint_codes (d : Decimal.uint) : list N :=
  match d with
  | Decimal.Nil => []
  | Decimal.D0 d' => 48%N :: uint_codes d'
  | Decimal.D1 d' => 49%N :: uint_codes d'
  | Decimal.D2 d' => 50%N :: uint_codes d'
  | Decimal.D3 d' => 51%N :: uint_codes d'
  | Decimal.D4 d' => 52%N :: uint_codes d'
  | Decimal.D5 d' => 53%N :: uint_codes d'
  | Decimal.D6 d' => 54%N :: uint_codes d'
  | Decimal.D7 d' => 55%N :: uint_codes d'
  | Decimal.D8 d' => 56%N :: uint_codes d'
  | Decimal.D9 d' => 57%N :: uint_codes d'
  end.

(** [n] copies of a character. *)
Fixpoint run_of (n : nat) (c : ascii) : string :=
  match n with
  | O => EmptyString
  | S n' => String c (run_of n' c)
  end.

(** Digit strings of 4301 characters: the numbers 3 and 41 behind a run of
    zeros. *)
Definition long_three : string := run_of 4300 "0" +:+ "3".
Definition long_forty_one : string := run_of 4299 "0" +:+ "41".

(** The floats 3.0 and 2.5 as binary64 numbers: a mantissa of 53 bits and
    the exponent -51. *)
Definition three_point_zero : py_value :=
  PyFloat (S754_finite false 6755399441055744 (-51)) "3.0".
Definition two_point_five : py_value :=
  PyFloat (S754_finite false 5629499534213120 (-51)) "2.5".

(** A record whose status and last result are floats. *)
Definition float_item : TaskItem :=
  {| Name := Some "job"; Status := two_point_five; NextRunTime := Some "";
     LastRunTime := Some ""; LastRunResult := three_point_zero;
     Author := Some "ops"; Created := None; Description := None;
     Triggers := Some "At 02:30 every day"; Actions := [] |}.

(** A task whose name holds a NUL character. *)
Definition null_in_name : PythonTask :=
  {| name := "nightly" +:+ char nul +:+ "backup"; script := "C:\jobs\backup.py";
     python := "C:\Python\python.exe"; args := None;
     frequency := "Daily"; at_ := AtTime {| hour := 2; minute := 30 |};
     on := OnNone; description := "Scheduled Python script";
     user := None; password := None |}.

(** A machine with powershell.exe, and one without. *)
Definition installed (script : string) : bool := true.
Definition not_installed (script : string) : bool := false.

(** [str(e)] of the built-in exceptions, as CPython words them on
    Windows. *)
Definition windows_text (e : builtin_exception) : string :=
  match e with
  | ValueError => "embedded null character"
  | OSError => "[WinError 2] The system cannot find the file specified"
  end.

(** ** Reading generated commands back *)

(** Put a character in front of the literal being read. *)
Definition push_char (c : ascii) (l : list string) : list string :=
  match l with
  | x :: xs => String c x :: xs
  | [] => []
  end.

(** A run of quoted literals separated by single spaces, up to the end of
    the text; [read_literals_in] starts after an opening quote.  [None] on
    text of any other form. *)
Fixpoint read_literals_in (s : string) : option (list string) :=
  match s with
  | EmptyString => None
  | String c r =>
      if Ascii.eqb c dq then
        match r with
        | EmptyString => Some [EmptyString]
        | String c' r' =>
            if Ascii.eqb c' dq then push_char dq <$> read_literals_in r'
            else if Ascii.eqb c' " " then
              match r' with
              | String c'' r'' =>
                  if Ascii.eqb c'' dq
                  then cons EmptyString <$> read_literals_in r''
                  else None
              | EmptyString => None
              end
            else None
        end
      else push_char c <$> read_literals_in r
  end.

Definition read_literals (s : string) : option (list string) :=
  match s with
  | EmptyString => Some []
  | String c r => if Ascii.eqb c dq then read_literals_in r else None
  end.

(** The executable and the argument list of an action fragment. *)
Definition read_action (fragment : string) : option (string * list string) :=
  rest ← strip_prefix "$action = New-ScheduledTaskAction -Execute " fragment;
  '(py, rest) ← read_quoted rest;
  rest ← strip_prefix " -Argument " rest;
  l ← read_literals rest;
  Some (py, l).

(** The description and the task name that a registration script assigns,
    and the text after the two assignments. *)
Definition read_assignments (script : string)
    : option (string * string * string) :=
  rest ← strip_prefix "$description = " script;
  '(desc, rest) ← read_quoted rest;
  rest ← strip_prefix "; $taskName = " rest;
  '(task_name, rest) ← read_quoted rest;
  Some (desc, task_name, rest).

(** The arguments [_build_action] passes on: the script, then [args]. *)
Definition action_arguments (_to_path_str : string -> string) (t : PythonTask)
    : list string :=
  _to_path_str (script t) :: default [] (args t).

(** ** Further hosts *)

(** A host on which the task exists and every other command is refused. *)
Definition locked_powershell (script : string) (h : unit)
    : CompletedProcess * unit :=
  match named_command
          "$ErrorActionPreference='SilentlyContinue'; Get-ScheduledTask -TaskName "
          script with
  | Some _ => (exit_with 0 "", h)
  | None => (exit_with 1 "Access is denied.", h)
  end.

(** A host that another actor empties after the first command: it answers
    the first script with exit code 0 and every later one with 1.  The state
    counts the scripts run. *)
Definition vanishing_powershell (script : string) (seen : nat)
    : CompletedProcess * nat :=
  (exit_with (if seen is O then 0 else 1) "", S seen).

(** A decoder for tests: the payload does not depend on the text. *)
Definition fixed_payload (p : payload) (txt : string) : option payload := Some p.

Definition failing_decoder (txt : string) : option payload := None.

(** A host whose answer to every script is the given process. *)
Definition answering (res : CompletedProcess) (script : string) (h : unit)
    : CompletedProcess * unit := (res, h).

(** The reference host with registration refused: every other script is
    answered as [sim_powershell] does. *)
Definition no_register_powershell (script : string) (reg : gset string)
    : CompletedProcess * gset string :=
  match registered_name script with
  | Some _ => (exit_with 1 "Access is denied.", reg)
  | None => sim_powershell script reg
  end.

(** ** What the filters of [list_tasks] ask of a record *)

(** An author filter that is given and non-empty asks for the same author,
    letter case apart. *)
Definition author_matches (author : option string) (item : TaskItem) : Prop :=
  truthy author = true ->
  lower (str_or_empty (Author item)) = lower (str_or_empty author).

(** A name filter that is given and non-empty asks for a name that holds the
    filter text, letter case apart. *)
Definition name_matches (name_contains : option string) (item : TaskItem)
    : Prop :=
  truthy name_contains = true ->
  exists p r,
    lower (str_or_empty (Name item))
    = p +:+ lower (str_or_empty name_contains) +:+ r.

(** The only-Python filter asks for one action that launches Python. *)
Definition python_matches (only_python : bool) (item : TaskItem) : Prop :=
  only_python = true -> exists a, a ∈ Actions item /\ python_related a.

(** Text made of white space only. *)
Fixpoint all_space (s : string) : bool :=
  match s with
  | EmptyString => true
  | String c r => is_space c && all_space r
  end.

Definition blank_process (out : string) : CompletedProcess :=
  {| returncode := 0; stdout := out; stderr := "" |}.

(** A loader for tests: it returns the same tasks for either filter value
    and counts its calls in the world. *)
Definition counting_loader (tasks : list TaskItem) (only_python : bool)
    (calls : nat) : option (list TaskItem) * nat :=
  (Some tasks, S calls).

Definition fresh_session : session_state :=
  {| tasks_snapshot := None; tasks_only_py := None; invalidate_tasks := None |}.

(** * Properties *)

(** Membership in a list that is written out. *)
Ltac in_list :=
  repeat first [apply list_elem_of_here | apply list_elem_of_further].

Section Quoting.

Lemma append_cons (c : ascii) (a b : string) :
  String c a +:+ b = String c (a +:+ b).
Proof. reflexivity. Qed.

Lemma append_assoc (a b c : string) : (a +:+ b) +:+ c = a +:+ b +:+ c.
Proof. induction a as [|x a IH]; simpl; [reflexivity | now rewrite IH]. Qed.

Lemma append_empty_r (a : string) : a +:+ EmptyString = a.
Proof. induction a as [|x a IH]; simpl; [reflexivity | now rewrite IH]. Qed.

Lemma read_body_doubled (r : string) :
  read_body (String dq (String dq r)) = prod_map (String dq) id <$> read_body r.
Proof. reflexivity. Qed.

Lemma read_body_plain (c : ascii) (r : string) :
  c <> dq -> read_body (String c r) = prod_map (String c) id <$> read_body r.
Proof.
  intros Hc. cbn [read_body].
  destruct (Ascii.eqb_spec c dq); [contradiction | reflexivity].
Qed.

Lemma read_body_close (rest : string) :
  no_leading_quote rest -> read_body (String dq rest) = Some (EmptyString, rest).
Proof.
  intros Hrest. destruct rest as [|c rest]; [reflexivity|].
  cbn [read_body no_leading_quote] in *.
  change (Ascii.eqb dq dq) with true. cbv iota.
  destruct (Ascii.eqb_spec c dq); [contradiction | reflexivity].
Qed.

Lemma replace_dq_hit (new v : string) :
  replace dq new (String dq v) = new +:+ replace dq new v.
Proof. reflexivity. Qed.

Lemma replace_dq_miss (new : string) (c : ascii) (v : string) :
  c <> dq -> replace dq new (String c v) = String c (replace dq new v).
Proof.
  intros Hc. cbn [replace].
  destruct (Ascii.eqb_spec c dq); [contradiction | reflexivity].
Qed.

Lemma read_body_escaped (v rest : string) :
  no_leading_quote rest ->
  read_body (replace dq (char dq +:+ char dq) v +:+ char dq +:+ rest)
  = Some (v, rest).
Proof.
  intros Hrest. induction v as [|c v IH].
  - now apply read_body_close.
  - destruct (Ascii.eqb_spec c dq) as [->|Hc].
    + rewrite replace_dq_hit, append_assoc.
      change (char dq +:+ char dq) with (String dq (String dq EmptyString)) at 1.
      rewrite !append_cons. change (EmptyString +:+ ?x) with x.
      rewrite read_body_doubled, IH. reflexivity.
    + rewrite replace_dq_miss, append_cons, read_body_plain, IH by assumption.
      reflexivity.
Qed.

Lemma read_quoted_quote (v rest : string) :
  no_leading_quote rest ->
  read_quoted (_quote_ps_arg v +:+ rest) = Some (v, rest).
Proof.
  intros Hrest. unfold _quote_ps_arg.
  rewrite !append_assoc. change (char dq +:+ ?x) with (String dq x) at 1.
  change (read_quoted (String dq ?x)) with (read_body x).
  now apply read_body_escaped.
Qed.

Lemma unquote_quote (v : string) : unquote_ps_arg (_quote_ps_arg v) = Some v.
Proof.
  unfold unquote_ps_arg.
  rewrite <- (append_empty_r (_quote_ps_arg v)).
  rewrite read_quoted_quote; [reflexivity | exact I].
Qed.

Lemma _quote_ps_arg_inj (a b : string) :
  _quote_ps_arg a = _quote_ps_arg b -> a = b.
Proof.
  intros H. apply (f_equal unquote_ps_arg) in H.
  rewrite !unquote_quote in H. now injection H.
Qed.

End Quoting.


(** ** The quoting rule and its inverse *)

Example quote_plain : _quote_ps_arg "backup" = String dq ("backup" +:+ char dq).
Proof. reflexivity. Qed.

Example quote_embedded :
  _quote_ps_arg ("say " +:+ char dq +:+ "hi" +:+ char dq +:+ "; exit")
  = String dq ("say " +:+ String dq (String dq ("hi" +:+ String dq (String dq
      ("; exit" +:+ char dq))))).
Proof. reflexivity. Qed.

Example unquote_rejects_lone_quote :
  unquote_ps_arg (String dq ("a" +:+ String dq ("b" +:+ char dq))) = None.
Proof. reflexivity. Qed.

(** C5. Quoting round-trips: for every string [s], with or without embedded
    double quotes, spaces or semicolons, reading the quoted form of [s] back
    (outer quotes stripped, doubled quotes collapsed) gives [s] exactly; and
    so quoting is injective. *)
Theorem quoting_round_trip (s : string) :
  unquote_ps_arg (_quote_ps_arg s) = Some s
  /\ (forall s', _quote_ps_arg s = _quote_ps_arg s' -> s = s').
Proof.
  split; [apply unquote_quote | intros s'; apply _quote_ps_arg_inj].
Qed.

Lemma quoting_round_trip_witness :
  let s := "say " +:+ char dq +:+ "hi" +:+ char dq +:+ "; exit" in
  unquote_ps_arg (_quote_ps_arg s) = Some s
  /\ (_quote_ps_arg s = _quote_ps_arg s -> s = s).
Proof.
  intros s. destruct (quoting_round_trip s) as [Hrt Hinj].
  split; [exact Hrt | exact (Hinj s)].
Defined.

(** ** The trigger fragment *)

Section TriggerFacts.

Variable now : datetime.

Lemma trigger_once (t : PythonTask) :
  frequency t = "Once" ->
  _build_trigger now t
  = "$trigger = New-ScheduledTaskTrigger -Once -At (Get-Date "
      +:+ _quote_ps_arg
            (strftime_Ymd (match on t with OnDate d => d | _ => dt_date now end)
               +:+ " " +:+ at_str (at_ t))
      +:+ ")".
Proof. intros Hf. unfold _build_trigger. rewrite Hf. reflexivity. Qed.

Lemma trigger_fallthrough (t : PythonTask) :
  frequency t <> "Once" -> frequency t <> "Weekly" ->
  _build_trigger now t
  = "$trigger = New-ScheduledTaskTrigger -Daily -At " +:+ at_str (at_ t).
Proof.
  intros Ho Hw. unfold _build_trigger.
  destruct (String.eqb_spec (frequency t) "Once"); [contradiction|].
  destruct (String.eqb_spec (frequency t) "Weekly"); [contradiction|].
  reflexivity.
Qed.

Lemma trigger_weekly_days (t : PythonTask) (l : list string) :
  frequency t = "Weekly" -> on t = OnDays l -> join "," l <> "" ->
  _build_trigger now t
  = "$trigger = New-ScheduledTaskTrigger -Weekly -DaysOfWeek " +:+ join "," l
      +:+ " -At " +:+ at_str (at_ t).
Proof.
  intros Hf Hon Hl. unfold _build_trigger. rewrite Hf, Hon.
  destruct l as [|d l]; [now destruct Hl|].
  cbn [String.eqb Ascii.eqb Bool.eqb on_truthy]. cbv iota.
  now destruct (join "," (d :: l)).
Qed.

Lemma trigger_weekly_default (t : PythonTask) :
  frequency t = "Weekly" -> on_truthy (on t) = false ->
  _build_trigger now t
  = "$trigger = New-ScheduledTaskTrigger -Weekly -DaysOfWeek "
      +:+ strftime_A now +:+ " -At " +:+ at_str (at_ t).
Proof.
  intros Hf Hon. unfold _build_trigger. now rewrite Hf, Hon.
Qed.

End TriggerFacts.

(** C6. The frequency branches of the trigger fragment: with [Once] and no
    date in [on], the fragment carries the current date followed by the [at]
    time; with [Weekly] and [on] absent or empty, it names the current
    weekday; with [Daily], the fragment is the same whatever [on] holds. *)
Theorem trigger_frequency_branches (now : datetime) (t : PythonTask) :
  (frequency t = "Once" -> (forall d, on t <> OnDate d) ->
   _build_trigger now t
   = "$trigger = New-ScheduledTaskTrigger -Once -At (Get-Date "
       +:+ _quote_ps_arg (strftime_Ymd (dt_date now) +:+ " " +:+ at_str (at_ t))
       +:+ ")")
  /\ (frequency t = "Weekly" -> on t = OnNone \/ on t = OnDays [] ->
      _build_trigger now t
      = "$trigger = New-ScheduledTaskTrigger -Weekly -DaysOfWeek "
          +:+ strftime_A now +:+ " -At " +:+ at_str (at_ t))
  /\ (frequency t = "Daily" ->
      forall o : on_value,
        _build_trigger now (with_on o t)
        = "$trigger = New-ScheduledTaskTrigger -Daily -At " +:+ at_str (at_ t)
        /\ _build_trigger now (with_on o t) = _build_trigger now t).
Proof.
  split; [|split].
  - intros Hf Hon. rewrite trigger_once by assumption.
    destruct (on t) as [|d|l]; try reflexivity. now destruct (Hon d).
  - intros Hf Hon. apply trigger_weekly_default; [assumption|].
    destruct Hon as [-> | ->]; reflexivity.
  - intros Hf o.
    assert (Hd : forall u, frequency u = "Daily" ->
              _build_trigger now u
              = "$trigger = New-ScheduledTaskTrigger -Daily -At "
                  +:+ at_str (at_ u)).
    { intros u Hu. apply trigger_fallthrough; rewrite Hu; discriminate. }
    rewrite (Hd (with_on o t) Hf), (Hd t Hf). split; reflexivity.
Qed.

Lemma trigger_frequency_branches_witness :
  _build_trigger tuesday_3_nov
    (with_schedule "Once" (AtStr "07:05") (OnDays ["Monday"]) nightly_backup)
  = "$trigger = New-ScheduledTaskTrigger -Once -At (Get-Date "
      +:+ _quote_ps_arg "2026-11-03 07:05" +:+ ")"
  /\ _build_trigger tuesday_3_nov
       (with_schedule "Weekly" (AtStr "07:05") (OnDays []) nightly_backup)
     = "$trigger = New-ScheduledTaskTrigger -Weekly -DaysOfWeek Tuesday -At 07:05"
  /\ _build_trigger tuesday_3_nov
       (with_on (OnDays ["Friday"]) nightly_backup)
     = "$trigger = New-ScheduledTaskTrigger -Daily -At 02:30".
Proof.
  split; [|split].
  - destruct (trigger_frequency_branches tuesday_3_nov
                (with_schedule "Once" (AtStr "07:05") (OnDays ["Monday"])
                   nightly_backup)) as (Honce & _ & _).
    apply Honce; [reflexivity | discriminate].
  - destruct (trigger_frequency_branches tuesday_3_nov
                (with_schedule "Weekly" (AtStr "07:05") (OnDays [])
                   nightly_backup)) as (_ & Hweekly & _).
    apply Hweekly; [reflexivity | right; reflexivity].
  - destruct (trigger_frequency_branches tuesday_3_nov nightly_backup)
      as (_ & _ & Hdaily).
    apply (Hdaily eq_refl (OnDays ["Friday"])).
Defined.

Lemma monthly_not_recognised : "Monthly" ∉ recognised_frequencies.
Proof.
  unfold recognised_frequencies. rewrite !not_elem_of_cons.
  repeat split; try discriminate. apply not_elem_of_nil.
Qed.

(** C2, as stated, fails: with the unrecognised frequency [Monthly] the
    builder returns a trigger fragment, the daily one. *)
Lemma unrecognised_frequency_builds_a_trigger :
  (frequency monthly_report ∉ recognised_frequencies)
  /\ _build_trigger tuesday_3_nov monthly_report
     = "$trigger = New-ScheduledTaskTrigger -Daily -At 12:00".
Proof. split; [exact monthly_not_recognised | reflexivity]. Qed.

(** C2, amended. For every task whose frequency is none of [Once], [Daily],
    [Weekly], building the trigger fragment does not fail: the last branch
    takes it and the result is the daily fragment at the task's time. *)
Theorem unrecognised_frequency_falls_through (now : datetime) (t : PythonTask) :
  frequency t ∉ recognised_frequencies ->
  _build_trigger now t
  = "$trigger = New-ScheduledTaskTrigger -Daily -At " +:+ at_str (at_ t).
Proof.
  unfold recognised_frequencies. rewrite !not_elem_of_cons.
  intros (Ho & _ & Hw & _). now apply trigger_fallthrough.
Qed.

Lemma unrecognised_frequency_falls_through_witness :
  _build_trigger tuesday_3_nov monthly_report
  = "$trigger = New-ScheduledTaskTrigger -Daily -At "
      +:+ at_str (at_ monthly_report).
Proof.
  apply (unrecognised_frequency_falls_through tuesday_3_nov monthly_report).
  exact monthly_not_recognised.
Defined.

(** C1, on the code: the daily and the weekly trigger fragments carry the
    [at] text and the joined day names as they are.  At these two tasks the
    fragment holds no quote character at all, so the interpolated values are
    not in their quoted form, and the text after the semicolon stands in the
    command as a statement of its own. *)
Theorem trigger_values_skip_quoting :
  _build_trigger tuesday_3_nov daily_with_payload
  = "$trigger = New-ScheduledTaskTrigger -Daily -At 12:00; Remove-Item C:\jobs"
  /\ contains (char dq) (_build_trigger tuesday_3_nov daily_with_payload) = false
  /\ contains (_quote_ps_arg (at_str (at_ daily_with_payload)))
       (_build_trigger tuesday_3_nov daily_with_payload) = false
  /\ _build_trigger tuesday_3_nov weekly_with_payload
     = "$trigger = New-ScheduledTaskTrigger -Weekly -DaysOfWeek Monday,Friday; Remove-Item C:\jobs -At 02:30"
  /\ contains (char dq) (_build_trigger tuesday_3_nov weekly_with_payload) = false.
Proof. repeat split; vm_compute; reflexivity. Qed.

(** ** The registration fragment *)

Section RegisterFacts.

Variable _to_path_str : string -> string.
Variable now : datetime.

Lemma _build_register_shape (t : PythonTask) :
  _build_register _to_path_str now t
  = register_base _to_path_str now t +:+ register_command
      +:+ run_as (user t) (password t) +:+ " | Out-Null".
Proof.
  unfold _build_register, register_base, run_as. cbv zeta.
  destruct (user t) as [[|c u]|], (password t) as [[|d p]|];
    cbn [truthy andb default]; cbv iota;
    rewrite !append_assoc;
    do 9 (apply (f_equal (String.append _)));
    reflexivity.
Qed.

End RegisterFacts.

(** C8. The credential branch of the registration fragment is three-way:
    with a user and a password given (present and non-empty) the command
    carries both, quoted; with only a user given it carries the quoted user
    and no password; with no user it carries no credentials, whether or not
    a password is given. *)
Theorem register_credentials_three_way
    (_to_path_str : string -> string) (now : datetime) (t : PythonTask) :
  (forall u p,
     user t = Some u -> u <> "" -> password t = Some p -> p <> "" ->
     _build_register _to_path_str now t
     = register_base _to_path_str now t +:+ register_command
         +:+ " -User " +:+ _quote_ps_arg u
         +:+ " -Password " +:+ _quote_ps_arg p +:+ " | Out-Null")
  /\ (forall u,
        user t = Some u -> u <> "" -> truthy (password t) = false ->
        _build_register _to_path_str now t
        = register_base _to_path_str now t +:+ register_command
            +:+ " -User " +:+ _quote_ps_arg u +:+ " | Out-Null")
  /\ (truthy (user t) = false ->
      _build_register _to_path_str now t
      = register_base _to_path_str now t +:+ register_command +:+ " | Out-Null").
Proof.
  rewrite _build_register_shape. split; [|split].
  - intros [|c u] [|d p] -> Hu -> Hp; try congruence.
    cbn [run_as]. now rewrite !append_assoc.
  - intros [|c u] -> Hu Hp; try congruence.
    destruct (password t) as [[|d p]|]; try discriminate; reflexivity.
  - intros Hu.
    destruct (user t) as [[|c u]|]; try discriminate;
      destruct (password t) as [[|d p]|]; reflexivity.
Qed.

Lemma register_credentials_three_way_witness :
  _build_register resolved tuesday_3_nov
    (with_credentials (Some "svc") (Some "s3cret") nightly_backup)
  = register_base resolved tuesday_3_nov nightly_backup +:+ register_command
      +:+ " -User " +:+ _quote_ps_arg "svc"
      +:+ " -Password " +:+ _quote_ps_arg "s3cret" +:+ " | Out-Null"
  /\ _build_register resolved tuesday_3_nov
       (with_credentials (Some "svc") None nightly_backup)
     = register_base resolved tuesday_3_nov nightly_backup +:+ register_command
         +:+ " -User " +:+ _quote_ps_arg "svc" +:+ " | Out-Null"
  /\ _build_register resolved tuesday_3_nov
       (with_credentials None (Some "s3cret") nightly_backup)
     = register_base resolved tuesday_3_nov nightly_backup +:+ register_command
         +:+ " | Out-Null".
Proof.
  split; [|split].
  - destruct (register_credentials_three_way resolved tuesday_3_nov
                (with_credentials (Some "svc") (Some "s3cret") nightly_backup))
      as (Hboth & _ & _).
    apply (Hboth "svc" "s3cret"); [reflexivity | discriminate
                                  | reflexivity | discriminate].
  - destruct (register_credentials_three_way resolved tuesday_3_nov
                (with_credentials (Some "svc") None nightly_backup))
      as (_ & Huser & _).
    apply (Huser "svc"); [reflexivity | discriminate | reflexivity].
  - destruct (register_credentials_three_way resolved tuesday_3_nov
                (with_credentials None (Some "s3cret") nightly_backup))
      as (_ & _ & Hnone).
    apply Hnone. reflexivity.
Defined.

(** ** The mutation workflow *)

Section WorkflowFacts.

Context {Host : Type}.
Variable powershell : string -> Host -> CompletedProcess * Host.

Lemma _run_powershell_eq (script : string) (w : World Host) :
  _run_powershell powershell script w
  = (Returns (powershell script (host w)).1,
     {| host := (powershell script (host w)).2;
        issued := issued w ++ [script] |}).
Proof.
  unfold _run_powershell. now destruct (powershell script (host w)).
Qed.

Lemma bind_run (A : Type) (script : string)
    (k : CompletedProcess -> PS Host A) (w : World Host) :
  bind (_run_powershell powershell script) k w
  = k (powershell script (host w)).1
      {| host := (powershell script (host w)).2;
         issued := issued w ++ [script] |}.
Proof. unfold bind. now rewrite _run_powershell_eq. Qed.

Lemma exists_eq (t : PythonTask) (w : World Host) :
  exists_ powershell t w
  = (Returns (returncode (powershell (exists_script (name t)) (host w)).1 =? 0),
     {| host := (powershell (exists_script (name t)) (host w)).2;
        issued := issued w ++ [exists_script (name t)] |}).
Proof. unfold exists_. now rewrite bind_run. Qed.

Lemma bind_exists (A : Type) (t : PythonTask)
    (k : bool -> PS Host A) (w : World Host) :
  bind (exists_ powershell t) k w
  = k (returncode (powershell (exists_script (name t)) (host w)).1 =? 0)
      {| host := (powershell (exists_script (name t)) (host w)).2;
         issued := issued w ++ [exists_script (name t)] |}.
Proof. unfold bind at 1. now rewrite exists_eq. Qed.

(** A method that runs one script and raises [TaskError] on a non-zero exit
    code: it issues that script and nothing else, and [TaskNotFoundError] is
    not among its outcomes. *)
Lemma one_script_method (script : string)
    (failure : CompletedProcess -> string) (w : World Host) :
  let m : PS Host unit :=
    bind (_run_powershell powershell script) (fun res =>
      if negb (returncode res =? 0)
      then raise (TaskError (failure res))
      else ret tt) in
  issued (m w).2 = issued w ++ [script]
  /\ forall msg, (m w).1 <> Raises (TaskNotFoundError msg).
Proof.
  intros m. unfold m. rewrite bind_run.
  destruct (negb _); split; try reflexivity; intros msg; discriminate.
Qed.

Lemma enable_issues_one_script (t : PythonTask) (w : World Host) :
  issued (enable powershell t w).2 = issued w ++ [enable_script (name t)]
  /\ forall msg, (enable powershell t w).1 <> Raises (TaskNotFoundError msg).
Proof.
  exact (one_script_method (enable_script (name t))
           (fun res => "Failed to enable task '" +:+ name t +:+ "':"
                         +:+ diagnostics res) w).
Qed.

Lemma disable_issues_one_script (t : PythonTask) (w : World Host) :
  issued (disable powershell t w).2 = issued w ++ [disable_script (name t)]
  /\ forall msg, (disable powershell t w).1 <> Raises (TaskNotFoundError msg).
Proof.
  exact (one_script_method (disable_script (name t))
           (fun res => "Failed to disable task '" +:+ name t +:+ "':"
                         +:+ diagnostics res) w).
Qed.

Lemma stop_issues_one_script (t : PythonTask) (w : World Host) :
  issued (stop powershell t w).2 = issued w ++ [stop_script (name t)]
  /\ forall msg, (stop powershell t w).1 <> Raises (TaskNotFoundError msg).
Proof.
  exact (one_script_method (stop_script (name t))
           (fun res => "Failed to stop task '" +:+ name t +:+ "':"
                         +:+ diagnostics res) w).
Qed.

(** [run] asks first: when the query's exit code is not 0 it raises
    [TaskNotFoundError] and the query is the only script issued. *)
Lemma run_on_absent (t : PythonTask) (w : World Host) :
  returncode (powershell (exists_script (name t)) (host w)).1 <> 0 ->
  run powershell t w
  = (Raises (TaskNotFoundError ("Task '" +:+ name t +:+ "' not found")),
     {| host := (powershell (exists_script (name t)) (host w)).2;
        issued := issued w ++ [exists_script (name t)] |}).
Proof.
  intros Hrc. unfold run. rewrite bind_exists.
  apply Z.eqb_neq in Hrc. rewrite Hrc. reflexivity.
Qed.

End WorkflowFacts.

(** *** [exists] and the start of the process *)

Section StartFacts.

Lemma contains_nul_cons (c : ascii) (s : string) :
  contains (char nul) (String c s)
  = Ascii.eqb nul c || contains (char nul) s.
Proof. cbn [contains startswith char]. now rewrite andb_true_r. Qed.

Lemma contains_nul_app (a b : string) :
  contains (char nul) (a +:+ b)
  = contains (char nul) a || contains (char nul) b.
Proof.
  induction a as [|c a IH]; [reflexivity|].
  cbn [String.append]. rewrite !contains_nul_cons, IH. apply orb_assoc.
Qed.

Lemma contains_nul_replace (v : string) :
  contains (char nul) (replace dq (char dq +:+ char dq) v)
  = contains (char nul) v.
Proof.
  induction v as [|c v IH]; [reflexivity|].
  cbn [replace]. destruct (Ascii.eqb c dq) eqn:Hc.
  - apply Ascii.eqb_eq in Hc. subst c.
    now rewrite contains_nul_app, IH, contains_nul_cons.
  - now rewrite !contains_nul_cons, IH.
Qed.

Lemma contains_nul_quote (v : string) :
  contains (char nul) (_quote_ps_arg v) = contains (char nul) v.
Proof.
  unfold _quote_ps_arg.
  rewrite !contains_nul_app, contains_nul_replace.
  change (contains (char nul) (char dq)) with false.
  now rewrite orb_false_r.
Qed.

(** The existence script holds a NUL character exactly when the task name
    does. *)
Lemma contains_nul_exists_script (n : string) :
  contains (char nul) (exists_script n) = contains (char nul) n.
Proof.
  unfold exists_script.
  rewrite !contains_nul_app, contains_nul_quote.
  now rewrite orb_false_r.
Qed.

Context {Host : Type}.
Variable starts : string -> bool.
Variable powershell : string -> Host -> CompletedProcess * Host.

Lemma start_exists_null (t : PythonTask) (w : World Host) :
  contains (char nul) (name t) = true ->
  Start.exists_ starts powershell t w = (Propagates ValueError, w).
Proof.
  intros Hn. unfold Start.exists_, Start._run_powershell.
  now rewrite contains_nul_exists_script, Hn.
Qed.

Lemma start_exists_not_started (t : PythonTask) (w : World Host) :
  contains (char nul) (name t) = false ->
  starts (exists_script (name t)) = false ->
  Start.exists_ starts powershell t w = (Propagates OSError, w).
Proof.
  intros Hn Hs. unfold Start.exists_, Start._run_powershell.
  now rewrite contains_nul_exists_script, Hn, Hs.
Qed.

(** Once the process starts, [exists] is the method of the workflow
    above. *)
Lemma start_exists_started (t : PythonTask) (w : World Host) :
  contains (char nul) (name t) = false ->
  starts (exists_script (name t)) = true ->
  Start.exists_ starts powershell t w
  = (Completes (returncode (powershell (exists_script (name t)) (host w)).1 =? 0),
     (exists_ powershell t w).2).
Proof.
  intros Hn Hs. rewrite exists_eq. unfold Start.exists_, Start._run_powershell.
  rewrite contains_nul_exists_script, Hn, Hs. cbn [negb].
  now destruct (powershell _ _).
Qed.

End StartFacts.

(** C10, as stated, fails: a task name that holds a NUL character makes
    [exists] raise.  [subprocess.run] refuses the argument with [ValueError]
    before any process is started, and [exists] has no handler.  A plain
    name makes it raise as well on a machine without powershell.exe. *)
Lemma exists_raises_on_a_null_character :
  Start.exists_ installed sim_powershell null_in_name empty_host
  = (Propagates ValueError, empty_host)
  /\ Start.exists_ not_installed sim_powershell nightly_backup empty_host
     = (Propagates OSError, empty_host).
Proof. repeat split; vm_compute; reflexivity. Qed.

(** C10, amended.  [exists] returns a boolean whenever the process is
    started, which it is when the name holds no NUL character and the
    system starts powershell.exe on the script.  The boolean is true exactly
    when the exit code of the existence script is 0, so that any other exit
    code reads as absence, and the script is the only one issued.  Otherwise
    [exists] raises, nothing having run: [ValueError] for a NUL character
    in the name, [OSError] when the process cannot be started. *)
Theorem exists_reports_a_started_process
    (Host : Type) (starts : string -> bool)
    (powershell : string -> Host -> CompletedProcess * Host)
    (t : PythonTask) (w : World Host) :
  let script := exists_script (name t) in
  let res := (powershell script (host w)).1 in
  (contains (char nul) (name t) = true ->
   Start.exists_ starts powershell t w = (Propagates ValueError, w))
  /\ (contains (char nul) (name t) = false -> starts script = false ->
      Start.exists_ starts powershell t w = (Propagates OSError, w))
  /\ (contains (char nul) (name t) = false -> starts script = true ->
      exists b : bool,
        Start.exists_ starts powershell t w
        = (Completes b,
           {| host := (powershell script (host w)).2;
              issued := issued w ++ [script] |})
        /\ (b = true <-> returncode res = 0)
        /\ (returncode res <> 0 -> b = false)).
Proof.
  intros script res. split; [|split].
  - apply start_exists_null.
  - apply start_exists_not_started.
  - intros Hn Hs. exists (returncode res =? 0). split.
    + rewrite start_exists_started by assumption. now rewrite exists_eq.
    + split; [apply Z.eqb_eq | apply Z.eqb_neq].
Qed.

Lemma exists_reports_a_started_process_witness :
  Start.exists_ installed sim_powershell null_in_name empty_host
  = (Propagates ValueError, empty_host)
  /\ Start.exists_ not_installed sim_powershell ghost empty_host
     = (Propagates OSError, empty_host)
  /\ (exists b : bool,
        Start.exists_ installed sim_powershell nightly_backup host_with_backup
        = (Completes b,
           {| host := (sim_powershell (exists_script (name nightly_backup))
                         (host host_with_backup)).2;
              issued := issued host_with_backup
                          ++ [exists_script (name nightly_backup)] |})
        /\ (b = true
            <-> returncode (sim_powershell (exists_script (name nightly_backup))
                              (host host_with_backup)).1 = 0)
        /\ (returncode (sim_powershell (exists_script (name nightly_backup))
                          (host host_with_backup)).1 <> 0 -> b = false)).
Proof.
  split; [|split].
  - apply (exists_reports_a_started_process (gset string) installed
             sim_powershell null_in_name empty_host).
    reflexivity.
  - apply (exists_reports_a_started_process (gset string) not_installed
             sim_powershell ghost empty_host); reflexivity.
  - apply (exists_reports_a_started_process (gset string) installed
             sim_powershell nightly_backup host_with_backup); reflexivity.
Defined.

(** C3, on the code: on a host without the task, [run] issues the existence
    query and raises [TaskNotFoundError]; [enable], [disable] and [stop]
    issue no query, only their own command, and what they raise is the
    [TaskError] of the failed command. *)
Theorem enable_disable_stop_do_not_query :
  run sim_powershell ghost empty_host
  = (Raises (TaskNotFoundError "Task 'ghost' not found"),
     {| host := ∅; issued := [exists_script "ghost"] |})
  /\ enable sim_powershell ghost empty_host
     = (Raises (TaskError ("Failed to enable task 'ghost':" +:+ char nl
                             +:+ "No task of that name" +:+ char nl)),
        {| host := ∅; issued := [enable_script "ghost"] |})
  /\ disable sim_powershell ghost empty_host
     = (Raises (TaskError ("Failed to disable task 'ghost':" +:+ char nl
                             +:+ "No task of that name" +:+ char nl)),
        {| host := ∅; issued := [disable_script "ghost"] |})
  /\ stop sim_powershell ghost empty_host
     = (Raises (TaskError ("Failed to stop task 'ghost':" +:+ char nl
                             +:+ "No task of that name" +:+ char nl)),
        {| host := ∅; issued := [stop_script "ghost"] |}).
Proof. repeat split; vm_compute; reflexivity. Qed.

(** ** Create on an existing name *)

Section ContractFacts.

Context {Host : Type}.
Variable powershell : string -> Host -> CompletedProcess * Host.
Variable _to_path_str : string -> string.
Variable now : datetime.
Variable present : string -> Host -> bool.

Hypothesis contract : scheduler_contract powershell _to_path_str now present.

Lemma query_true (n : string) (h : Host) :
  present n h = true ->
  (returncode (powershell (exists_script n) h).1 =? 0) = true.
Proof. intros Hp. apply Z.eqb_eq. now apply (query_reports contract). Qed.

Lemma create_refuses_existing (t : PythonTask) (w : World Host) :
  present (name t) (host w) = true ->
  create powershell _to_path_str now t false w
  = (Raises (TaskAlreadyExistsError ("Task '" +:+ name t +:+ "' already exists")),
     {| host := (powershell (exists_script (name t)) (host w)).2;
        issued := issued w ++ [exists_script (name t)] |}).
Proof.
  intros Hp. unfold create.
  rewrite bind_exists, query_true by assumption.
  reflexivity.
Qed.

Lemma delete_present (t : PythonTask) (w : World Host) :
  present (name t) (host w) = true ->
  let h1 := (powershell (exists_script (name t)) (host w)).2 in
  delete powershell t w
  = (Returns tt,
     {| host := (powershell (delete_script (name t)) h1).2;
        issued := issued w ++ [exists_script (name t); delete_script (name t)] |}).
Proof.
  intros Hp h1. unfold delete.
  rewrite bind_exists, query_true by assumption. cbn [negb].
  rewrite bind_run. cbn [host issued]. fold h1.
  assert (Hp1 : present (name t) h1 = true)
    by (unfold h1; now rewrite (query_keeps contract)).
  destruct (unregister_removes contract (name t) h1 Hp1) as [-> _].
  cbn [Z.eqb negb]. unfold ret. now rewrite <- app_assoc.
Qed.

Lemma create_overwrites_existing (t : PythonTask) (w : World Host) :
  present (name t) (host w) = true ->
  let h1 := (powershell (exists_script (name t)) (host w)).2 in
  let h2 := (powershell (exists_script (name t)) h1).2 in
  let h3 := (powershell (delete_script (name t)) h2).2 in
  create powershell _to_path_str now t true w
  = (Returns tt,
     {| host := (powershell (_build_register _to_path_str now t) h3).2;
        issued := issued w ++ [exists_script (name t); exists_script (name t);
                               delete_script (name t);
                               _build_register _to_path_str now t] |})
  /\ present (name t)
       (powershell (_build_register _to_path_str now t) h3).2 = true.
Proof.
  intros Hp h1 h2 h3.
  assert (Hp1 : present (name t) h1 = true)
    by (unfold h1; now rewrite (query_keeps contract)).
  assert (Hp2 : present (name t) h2 = true)
    by (unfold h2; now rewrite (query_keeps contract)).
  destruct (unregister_removes contract (name t) h2 Hp2) as [_ Hp3].
  fold h3 in Hp3.
  destruct (register_adds contract t h3 Hp3) as [Hrc Hp4].
  split; [|exact Hp4].
  unfold create.
  rewrite bind_exists, query_true by assumption.
  cbn [negb]. unfold bind at 1.
  rewrite delete_present by (cbn [host]; exact Hp1).
  cbn [host issued]. fold h1 h2 h3.
  rewrite bind_run. cbn [host issued]. rewrite Hrc. cbn [Z.eqb negb].
  unfold ret. now rewrite <- !app_assoc.
Qed.

End ContractFacts.



(** ** The reference host keeps the contract *)

Section ReferenceHost.

Lemma strip_prefix_app (p r : string) : strip_prefix p (p +:+ r) = Some r.
Proof.
  induction p as [|c p IH]; [reflexivity|].
  cbn [String.append strip_prefix]. now rewrite Ascii.eqb_refl.
Qed.

Lemma named_command_hit (verb n rest : string) :
  no_leading_quote rest ->
  named_command verb (verb +:+ _quote_ps_arg n +:+ rest) = Some n.
Proof.
  intros Hrest. unfold named_command.
  rewrite strip_prefix_app. cbn [mbind option_bind].
  now rewrite read_quoted_quote.
Qed.

Lemma sim_query (n : string) (reg : gset string) :
  sim_powershell (exists_script n) reg
  = (exit_with (if decide (n ∈ reg) then 0 else 1) "", reg).
Proof.
  unfold sim_powershell, exists_script.
  rewrite named_command_hit; [reflexivity | discriminate].
Qed.

Lemma sim_unregister (n : string) (reg : gset string) :
  sim_powershell (delete_script n) reg
  = if decide (n ∈ reg) then (exit_with 0 "", reg ∖ {[ n ]})
    else (exit_with 1 "No task of that name", reg).
Proof.
  unfold sim_powershell.
  change (named_command _ (delete_script n)) with (@None string) at 1.
  unfold delete_script.
  rewrite named_command_hit; [reflexivity | discriminate].
Qed.

Lemma registered_name_of_register
    (_to_path_str : string -> string) (now : datetime) (t : PythonTask) :
  registered_name (_build_register _to_path_str now t) = Some (name t).
Proof.
  rewrite _build_register_shape. unfold register_base, registered_name.
  rewrite !append_assoc, strip_prefix_app. cbn [mbind option_bind].
  rewrite read_quoted_quote by discriminate. cbn [mbind option_bind].
  rewrite strip_prefix_app. cbn [mbind option_bind].
  now rewrite read_quoted_quote by discriminate.
Qed.

Lemma sim_register
    (_to_path_str : string -> string) (now : datetime) (t : PythonTask)
    (reg : gset string) :
  sim_powershell (_build_register _to_path_str now t) reg
  = if decide (name t ∈ reg)
    then (exit_with 1 "The task exists already", reg)
    else (exit_with 0 "", reg ∪ {[ name t ]}).
Proof.
  unfold sim_powershell.
  rewrite registered_name_of_register.
  rewrite _build_register_shape. unfold register_base.
  rewrite !append_assoc. reflexivity.
Qed.

Lemma sim_keeps_contract (_to_path_str : string -> string) (now : datetime) :
  scheduler_contract sim_powershell _to_path_str now sim_present.
Proof.
  unfold sim_present. split.
  - intros n reg. rewrite sim_query. cbn.
    destruct (decide (n ∈ reg)) as [Hin|Hout].
    + now rewrite bool_decide_eq_true.
    + rewrite bool_decide_eq_true. split; [discriminate | contradiction].
  - intros n reg. now rewrite sim_query.
  - intros n reg Hin. apply bool_decide_eq_true in Hin.
    rewrite sim_unregister. destruct (decide (n ∈ reg)); [|contradiction].
    split; [reflexivity|]. apply bool_decide_eq_false. cbn [snd].
    rewrite elem_of_difference, elem_of_singleton. tauto.
  - intros t reg Hout. apply bool_decide_eq_false in Hout.
    rewrite sim_register. destruct (decide (name t ∈ reg)); [contradiction|].
    split; [reflexivity|]. apply bool_decide_eq_true. cbn [snd].
    apply elem_of_union_r. now apply elem_of_singleton.
Qed.

End ReferenceHost.


(** Scenarios A and B of the specification on the reference host: creating
    [nightly_backup] on an empty host succeeds and the task then exists;
    creating it again without [overwrite] raises and leaves the host as it
    was. *)
Example scenario_A :
  let after := (create sim_powershell resolved tuesday_3_nov nightly_backup
                  false empty_host).2 in
  (create sim_powershell resolved tuesday_3_nov nightly_backup false
     empty_host).1 = Returns tt
  /\ issued after = [exists_script "nightly-backup";
                     _build_register resolved tuesday_3_nov nightly_backup]
  /\ (exists_ sim_powershell nightly_backup after).1 = Returns true.
Proof. repeat split; vm_compute; reflexivity. Qed.

Example scenario_B :
  let after := (create sim_powershell resolved tuesday_3_nov nightly_backup
                  false host_with_backup).2 in
  (create sim_powershell resolved tuesday_3_nov nightly_backup false
     host_with_backup).1
  = Raises (TaskAlreadyExistsError "Task 'nightly-backup' already exists")
  /\ issued after = [exists_script "nightly-backup"]
  /\ (exists_ sim_powershell nightly_backup after).1 = Returns true.
Proof. repeat split; vm_compute; reflexivity. Qed.

(** ** Status and result normalisation *)

Section Normalisation.

(** [str_int] prints the integer itself: reading the decimal text back gives
    the number printed. *)
Lemma str_int_reads_back (n : Z) :
  Z.of_int <$> NilZero.int_of_string (str_int n) = Some n.
Proof.
  unfold str_int. rewrite NilZero.isi.
  - cbn [fmap option_fmap option_map]. now rewrite DecimalZ.of_to.
  - destruct n; try discriminate. cbn.
    intros [= H]. now apply Unsigned.to_uint_nonnil in H.
  - destruct n; try discriminate. cbn.
    intros [= H]. now apply Unsigned.to_uint_nonnil in H.
Qed.

Lemma mapping_hit_int (n : Z) :
  0 <= n <= 4 -> exists l, mapping !! PyInt n = Some l /\ l ∈ status_labels.
Proof.
  intros Hn.
  assert (Hcases : n = 0 \/ n = 1 \/ n = 2 \/ n = 3 \/ n = 4) by lia.
  clear Hn. unfold status_labels.
  destruct Hcases as [-> | [-> | [-> | [-> | ->]]]];
    eexists; (split; [vm_compute; reflexivity | in_list]).
Qed.

Lemma mapping_hit_str (x : string) :
  x ∈ canonical_status_names ->
  isdigit x = false
  /\ exists l, mapping !! PyStr x = Some l /\ l ∈ status_labels.
Proof.
  unfold canonical_status_names, status_labels. rewrite !elem_of_cons.
  intros [-> | [-> | [-> | [-> | [-> | H]]]]];
    [| | | | | now apply elem_of_nil in H];
    (split; [vm_compute; reflexivity|]);
    eexists; (split; [vm_compute; reflexivity | in_list]).
Qed.

Lemma mapping_miss (v : py_value) :
  (forall n, v = PyInt n -> ~ 0 <= n <= 4) ->
  (forall x, v = PyStr x -> x ∉ canonical_status_names) ->
  mapping !! v = None.
Proof.
  intros Hint Hstr. apply not_elem_of_list_to_map_1.
  cbn [fmap list_fmap fst]. rewrite !not_elem_of_cons.
  unfold canonical_status_names in Hstr.
  repeat split;
    try (intros ->;
         first [ eapply Hstr; [reflexivity | in_list]
               | eapply Hint; [reflexivity | lia] ]).
  apply not_elem_of_nil.
Qed.

(** What [map_status] looks up is the integer the status stands for, when
    there is one, and the status itself otherwise. *)
Lemma status_key (v : py_value) :
  let s_val :=
    match v with
    | PyStr x =>
        if isdigit x then match int x with Some n => PyInt n | None => v end
        else v
    | _ => v
    end in
  dict_key s_val
  = match status_number v with
    | Some n => PyInt n
    | None => v
    end.
Proof.
  destruct v as [|b|n|f repr|x]; cbn [status_number dict_key]; try reflexivity.
  destruct (isdigit x); [|reflexivity]. now destruct (int x).
Qed.

Lemma map_status_eq (v : py_value) :
  map_status v
  = default (str v)
      (mapping !! match status_number v with Some n => PyInt n | None => v end).
Proof. unfold map_status. now rewrite status_key. Qed.

(** What [map_result] goes on with after its [try] block. *)
Lemma map_result_numeric (v : py_value) (n : Z) :
  numeric_value v = Some n ->
  map_result v = default ("Code " +:+ str_int n) (known !! PyInt n).
Proof.
  unfold map_result. destruct v as [|b|m|f repr|x]; cbn [numeric_value];
    try discriminate.
  - now intros [= ->].
  - destruct (isdigit x); [|discriminate]. now intros ->.
Qed.

End Normalisation.




Example status_examples :
  map_status (PyInt 3) = label_ready
  /\ map_status (PyStr "4") = label_running
  /\ map_status (PyStr "Disabled") = label_disabled
  /\ map_status (PyInt 7) = "7"
  /\ map_status PyNone = "None"
  /\ map_status (PyBool true) = label_disabled
  /\ map_status (PyBool false) = label_unknown
  /\ map_status three_point_zero = label_ready
  /\ map_status two_point_five = "2.5"
  /\ map_status (PyStr (bytes [217; 163]%nat)) = label_ready
  /\ map_status (PyStr (bytes [194; 179]%nat)) = bytes [194; 179]%nat.
Proof. repeat split; vm_compute; reflexivity. Qed.

Example result_examples :
  map_result (PyInt 0) = "Succeeded"
  /\ map_result (PyStr "267009") = "Running"
  /\ map_result (PyInt (-5)) = "Code -5"
  /\ map_result (PyStr "0041") = "Code 41"
  /\ map_result (PyStr "-5") = "-5"
  /\ map_result PyNone = "None"
  /\ map_result (PyBool false) = "Succeeded"
  /\ map_result three_point_zero = "3.0"
  /\ map_result (PyStr (bytes [217; 164; 217; 161]%nat)) = "Code 41".
Proof. repeat split; vm_compute; reflexivity. Qed.

(** ** The only-Python filter *)

Section StringTests.

Lemma startswith_spec (p s : string) :
  startswith p s = true <-> exists r, s = p +:+ r.
Proof.
  revert s. induction p as [|a p IH]; intros s.
  - split; [intros _; now exists s | reflexivity].
  - destruct s as [|b s]; cbn [startswith].
    + split; [discriminate | intros (r & Hr); discriminate].
    + rewrite andb_true_iff, IH. split.
      * intros (Hab & r & ->). apply Ascii.eqb_eq in Hab as ->. now exists r.
      * intros (r & Hr). cbn [String.append] in Hr. injection Hr as -> ->.
        split; [apply Ascii.eqb_refl | now exists r].
Qed.

Lemma contains_spec (sub s : string) :
  contains sub s = true <-> exists p r, s = p +:+ sub +:+ r.
Proof.
  induction s as [|c s IH].
  - cbn [contains]. rewrite orb_false_r, startswith_spec. split.
    + intros (r & Hr). now exists EmptyString, r.
    + intros ([|c p] & r & Hr); [now exists r | discriminate].
  - cbn [contains]. rewrite orb_true_iff, startswith_spec, IH. split.
    + intros [(r & Hr) | (p & r & ->)].
      * now exists EmptyString, r.
      * now exists (String c p), r.
    + intros ([|c' p] & r & Hr).
      * left. now exists r.
      * right. cbn [String.append] in Hr. injection Hr as -> ->.
        now exists p, r.
Qed.

Lemma endswith_spec (suffix s : string) :
  endswith suffix s = true <-> exists p, s = p +:+ suffix.
Proof.
  induction s as [|c s IH].
  - cbn [endswith]. rewrite orb_false_r, String.eqb_eq. split.
    + intros <-. now exists EmptyString.
    + intros ([|c p] & Hp); [exact Hp | discriminate].
  - cbn [endswith]. rewrite orb_true_iff, String.eqb_eq, IH. split.
    + intros [<- | (p & ->)].
      * now exists EmptyString.
      * now exists (String c p).
    + intros ([|c' p] & Hp).
      * now left.
      * right. cbn [String.append] in Hp. injection Hp as -> ->. now exists p.
Qed.

End StringTests.

Lemma _is_python_action_spec (act : Action) :
  _is_python_action act = true <-> python_related act.
Proof.
  unfold _is_python_action, python_related. cbv zeta.
  rewrite !orb_true_iff, !endswith_spec, !contains_spec. tauto.
Qed.

Lemma any_python_action (acts : list Action) :
  existsb _is_python_action acts = true
  <-> exists a, a ∈ acts /\ python_related a.
Proof.
  rewrite existsb_exists. split; intros (a & Hin & Ha); exists a.
  - split; [now apply list_elem_of_In | now apply _is_python_action_spec].
  - split; [now apply list_elem_of_In | now apply _is_python_action_spec].
Qed.



(** * Further properties of the code *)

(** ** The action fragment reads back *)

Section ActionFacts.

Lemma push_char_cons (c : ascii) (v : string) (o : option (list string)) :
  push_char c <$> (cons v <$> o) = cons (String c v) <$> o.
Proof. now destruct o. Qed.

Lemma read_literals_in_plain (c : ascii) (r : string) :
  c <> dq -> read_literals_in (String c r) = push_char c <$> read_literals_in r.
Proof.
  intros Hc. cbn [read_literals_in].
  destruct (Ascii.eqb_spec c dq); [contradiction | reflexivity].
Qed.

Lemma read_literals_in_more (v rest : string) :
  read_literals_in
    (replace dq (char dq +:+ char dq) v +:+ char dq +:+ " " +:+ char dq +:+ rest)
  = cons v <$> read_literals_in rest.
Proof.
  induction v as [|c v IH]; [reflexivity|].
  destruct (Ascii.eqb_spec c dq) as [->|Hc].
  - rewrite replace_dq_hit, append_assoc.
    change ((char dq +:+ char dq) +:+ ?x) with (String dq (String dq x)).
    change (read_literals_in (String dq (String dq ?x)))
      with (push_char dq <$> read_literals_in x).
    rewrite IH. apply push_char_cons.
  - rewrite replace_dq_miss, append_cons, read_literals_in_plain, IH
      by assumption.
    apply push_char_cons.
Qed.

Lemma read_literals_in_last (v : string) :
  read_literals_in (replace dq (char dq +:+ char dq) v +:+ char dq) = Some [v].
Proof.
  induction v as [|c v IH]; [reflexivity|].
  destruct (Ascii.eqb_spec c dq) as [->|Hc].
  - rewrite replace_dq_hit, append_assoc.
    change ((char dq +:+ char dq) +:+ ?x) with (String dq (String dq x)).
    change (read_literals_in (String dq (String dq ?x)))
      with (push_char dq <$> read_literals_in x).
    now rewrite IH.
  - rewrite replace_dq_miss, append_cons, read_literals_in_plain, IH
      by assumption.
    reflexivity.
Qed.

Lemma _quote_ps_arg_head (v : string) :
  _quote_ps_arg v
  = String dq (replace dq (char dq +:+ char dq) v +:+ char dq).
Proof. reflexivity. Qed.

Lemma read_literals_in_join (v : string) (l : list string) :
  exists body,
    join " " (_quote_ps_arg <$> (v :: l)) = String dq body
    /\ read_literals_in body = Some (v :: l).
Proof.
  revert v. induction l as [|w l IH]; intros v.
  - eexists. split; [apply _quote_ps_arg_head | apply read_literals_in_last].
  - destruct (IH w) as (body & Hjoin & Hread).
    exists (replace dq (char dq +:+ char dq) v +:+ char dq +:+ " "
              +:+ char dq +:+ body).
    split.
    + change (join " " (_quote_ps_arg <$> (v :: w :: l)))
        with (_quote_ps_arg v +:+ " "
                +:+ join " " (_quote_ps_arg <$> (w :: l))).
      rewrite Hjoin, _quote_ps_arg_head, append_cons, append_assoc.
      reflexivity.
    + now rewrite read_literals_in_more, Hread.
Qed.

Lemma read_literals_join (l : list string) :
  read_literals (join " " (_quote_ps_arg <$> l)) = Some l.
Proof.
  destruct l as [|v l]; [reflexivity|].
  destruct (read_literals_in_join v l) as (body & -> & Hread).
  exact Hread.
Qed.

End ActionFacts.

(** X1. The action fragment reads back: whatever characters the paths and
    the arguments hold (quotes, spaces, semicolons), the fragment is the
    fixed command text with quoted literals that lex to exactly the resolved
    executable, the resolved script and the arguments, in this order; a task
    with [args] absent or empty gives the script alone. *)
Theorem action_fragment_reads_back
    (_to_path_str : string -> string) (t : PythonTask) :
  read_action (_build_action _to_path_str t)
  = Some (_to_path_str (python t), action_arguments _to_path_str t).
Proof.
  unfold read_action, _build_action. cbv zeta.
  rewrite strip_prefix_app. cbn [mbind option_bind].
  rewrite read_quoted_quote by discriminate. cbn [mbind option_bind].
  rewrite strip_prefix_app. cbn [mbind option_bind].
  replace ([_to_path_str (script t)] ++ _)
    with (action_arguments _to_path_str t).
  - now rewrite read_literals_join.
  - unfold action_arguments. now destruct (args t) as [[|a l]|].
Qed.

(** X2. The registration script reads back: whatever the description and the
    task name hold, the script starts with the two assignments, their
    literals lex to exactly the description and the name, and what follows
    is the action fragment, the trigger fragment and the registration
    command with its credentials. *)
Theorem registration_script_reads_back
    (_to_path_str : string -> string) (now : datetime) (t : PythonTask) :
  read_assignments (_build_register _to_path_str now t)
  = Some (description t, name t,
          "; " +:+ _build_action _to_path_str t
            +:+ "; " +:+ _build_trigger now t
            +:+ "; " +:+ register_command
            +:+ run_as (user t) (password t) +:+ " | Out-Null").
Proof.
  rewrite _build_register_shape. unfold register_base, read_assignments.
  rewrite !append_assoc, strip_prefix_app. cbn [mbind option_bind].
  rewrite read_quoted_quote by discriminate. cbn [mbind option_bind].
  rewrite strip_prefix_app. cbn [mbind option_bind].
  now rewrite read_quoted_quote by discriminate.
Qed.

(** X3. Each single-command script names its task by a quoted literal that
    lexes back to the task name, whatever characters the name holds; so two
    names never give the same script. *)
Theorem single_command_scripts_read_back (n : string) :
  named_command
    "$ErrorActionPreference='SilentlyContinue'; Get-ScheduledTask -TaskName "
    (exists_script n) = Some n
  /\ named_command "Unregister-ScheduledTask -TaskName " (delete_script n) = Some n
  /\ named_command "Start-ScheduledTask -TaskName " (run_script n) = Some n
  /\ named_command "Enable-ScheduledTask -TaskName " (enable_script n) = Some n
  /\ named_command "Disable-ScheduledTask -TaskName " (disable_script n) = Some n
  /\ named_command "Stop-ScheduledTask -TaskName " (stop_script n) = Some n
  /\ (forall n', delete_script n = delete_script n' -> n = n').
Proof.
  assert (Hend : forall verb,
            named_command verb (verb +:+ _quote_ps_arg n) = Some n).
  { intros verb. rewrite <- (append_empty_r (_quote_ps_arg n)).
    now apply named_command_hit. }
  repeat split;
    try (apply named_command_hit; discriminate);
    try apply Hend.
  intros n' Heq.
  apply (f_equal (named_command "Unregister-ScheduledTask -TaskName ")) in Heq.
  unfold delete_script in Heq.
  rewrite !named_command_hit in Heq by discriminate. now injection Heq.
Qed.

(** ** More of the mutation workflow *)

Section WorkflowMore.

Context {Host : Type}.
Variable powershell : string -> Host -> CompletedProcess * Host.

Lemma delete_on_absent (t : PythonTask) (w : World Host) :
  returncode (powershell (exists_script (name t)) (host w)).1 <> 0 ->
  delete powershell t w
  = (Raises (TaskNotFoundError ("Task '" +:+ name t +:+ "' not found")),
     {| host := (powershell (exists_script (name t)) (host w)).2;
        issued := issued w ++ [exists_script (name t)] |}).
Proof.
  intros Hrc. unfold delete. rewrite bind_exists.
  apply Z.eqb_neq in Hrc. rewrite Hrc. reflexivity.
Qed.

End WorkflowMore.

(** X4. On a task the existence query reports absent (any non-zero exit
    code), [run] and [delete] raise [TaskNotFoundError] with the message
    [Task '<name>' not found], and the query is the only script they issue:
    no start and no unregister command reaches the host. *)
Theorem absent_task_is_not_touched
    (Host : Type) (powershell : string -> Host -> CompletedProcess * Host)
    (t : PythonTask) (w : World Host) :
  returncode (powershell (exists_script (name t)) (host w)).1 <> 0 ->
  let after :=
    {| host := (powershell (exists_script (name t)) (host w)).2;
       issued := issued w ++ [exists_script (name t)] |} in
  run powershell t w
  = (Raises (TaskNotFoundError ("Task '" +:+ name t +:+ "' not found")), after)
  /\ delete powershell t w
     = (Raises (TaskNotFoundError ("Task '" +:+ name t +:+ "' not found")), after).
Proof.
  intros Hrc after. split; [now apply run_on_absent | now apply delete_on_absent].
Qed.

Lemma absent_task_is_not_touched_witness :
  run sim_powershell ghost empty_host
  = (Raises (TaskNotFoundError "Task 'ghost' not found"),
     {| host := (sim_powershell (exists_script "ghost") ∅).2;
        issued := [exists_script "ghost"] |})
  /\ delete sim_powershell ghost empty_host
     = (Raises (TaskNotFoundError "Task 'ghost' not found"),
        {| host := (sim_powershell (exists_script "ghost") ∅).2;
           issued := [exists_script "ghost"] |}).
Proof.
  apply (absent_task_is_not_touched (gset string) sim_powershell ghost
           empty_host).
  vm_compute. discriminate.
Defined.

Section ContractMore.

Context {Host : Type}.
Variable powershell : string -> Host -> CompletedProcess * Host.
Variable _to_path_str : string -> string.
Variable now : datetime.
Variable present : string -> Host -> bool.

Hypothesis contract : scheduler_contract powershell _to_path_str now present.

Lemma query_false (n : string) (h : Host) :
  present n h = false ->
  (returncode (powershell (exists_script n) h).1 =? 0) = false.
Proof.
  intros Hp. apply Z.eqb_neq. intros Hrc.
  apply (query_reports contract) in Hrc. congruence.
Qed.

Lemma exists_reports_presence (t : PythonTask) (w : World Host) :
  (exists_ powershell t w).1 = Returns (present (name t) (host w)).
Proof.
  rewrite exists_eq. cbn [fst].
  destruct (present (name t) (host w)) eqn:Hp.
  - now rewrite (query_true powershell _to_path_str now present contract).
  - now rewrite query_false.
Qed.

Lemma create_on_absent (t : PythonTask) (overwrite : bool) (w : World Host) :
  present (name t) (host w) = false ->
  let h1 := (powershell (exists_script (name t)) (host w)).2 in
  create powershell _to_path_str now t overwrite w
  = (Returns tt,
     {| host := (powershell (_build_register _to_path_str now t) h1).2;
        issued := issued w ++ [exists_script (name t);
                               _build_register _to_path_str now t] |})
  /\ present (name t)
       (powershell (_build_register _to_path_str now t) h1).2 = true.
Proof.
  intros Hp h1.
  assert (Hp1 : present (name t) h1 = false)
    by (unfold h1; now rewrite (query_keeps contract)).
  destruct (register_adds contract t h1 Hp1) as [Hrc Hp2].
  split; [|exact Hp2].
  unfold create. rewrite bind_exists, query_false by assumption.
  unfold bind at 1, ret at 1. rewrite bind_run. cbn [host issued]. fold h1.
  rewrite Hrc. cbn [Z.eqb negb]. unfold ret. now rewrite <- !app_assoc.
Qed.

End ContractMore.

(** X5. On a host that keeps the scheduler contract, [delete] of a present
    task returns having issued the existence query and one unregister
    command, and an [exists] call right after it returns false. *)
Theorem delete_removes_the_task
    (Host : Type) (powershell : string -> Host -> CompletedProcess * Host)
    (_to_path_str : string -> string) (now : datetime)
    (present : string -> Host -> bool)
    (t : PythonTask) (w : World Host) :
  scheduler_contract powershell _to_path_str now present ->
  present (name t) (host w) = true ->
  (delete powershell t w).1 = Returns tt
  /\ issued (delete powershell t w).2
     = issued w ++ [exists_script (name t); delete_script (name t)]
  /\ (exists_ powershell t (delete powershell t w).2).1 = Returns false.
Proof.
  intros Hc Hp.
  rewrite (delete_present powershell _to_path_str now present Hc t w Hp).
  cbn [fst snd issued]. repeat split.
  rewrite (exists_reports_presence powershell _to_path_str now present Hc).
  cbn [host].
  assert (Hp1 : present (name t)
                  (powershell (exists_script (name t)) (host w)).2 = true)
    by now rewrite (query_keeps Hc).
  now destruct (unregister_removes Hc _ _ Hp1) as [_ ->].
Qed.

Lemma delete_removes_the_task_witness :
  (delete sim_powershell nightly_backup host_with_backup).1 = Returns tt
  /\ issued (delete sim_powershell nightly_backup host_with_backup).2
     = issued host_with_backup
         ++ [exists_script (name nightly_backup);
             delete_script (name nightly_backup)]
  /\ (exists_ sim_powershell nightly_backup
        (delete sim_powershell nightly_backup host_with_backup).2).1
     = Returns false.
Proof.
  apply (delete_removes_the_task (gset string) sim_powershell resolved
           tuesday_3_nov sim_present nightly_backup host_with_backup).
  - apply sim_keeps_contract.
  - vm_compute. reflexivity.
Defined.





Section ExitCodes.

Context {Host : Type}.
Variable powershell : string -> Host -> CompletedProcess * Host.
Variable _to_path_str : string -> string.
Variable now : datetime.

(** [delete] and [run] once the existence query has said yes. *)
Lemma delete_after_query (t : PythonTask) (w : World Host) :
  returncode (powershell (exists_script (name t)) (host w)).1 = 0 ->
  let h1 := (powershell (exists_script (name t)) (host w)).2 in
  let res := (powershell (delete_script (name t)) h1).1 in
  delete powershell t w
  = (if returncode res =? 0 then Returns tt
     else Raises (TaskError ("Failed to delete task '" +:+ name t +:+ "':"
                               +:+ diagnostics res)),
     {| host := (powershell (delete_script (name t)) h1).2;
        issued := issued w ++ [exists_script (name t); delete_script (name t)] |}).
Proof.
  intros Hq h1 res. unfold delete. rewrite bind_exists.
  apply Z.eqb_eq in Hq. rewrite Hq. cbn [negb].
  rewrite bind_run. cbn [host issued]. fold h1 res.
  rewrite <- app_assoc. clear Hq. destruct (returncode res =? 0); reflexivity.
Qed.

Lemma run_after_query (t : PythonTask) (w : World Host) :
  returncode (powershell (exists_script (name t)) (host w)).1 = 0 ->
  let h1 := (powershell (exists_script (name t)) (host w)).2 in
  let res := (powershell (run_script (name t)) h1).1 in
  run powershell t w
  = (if returncode res =? 0 then Returns tt
     else Raises (TaskError ("Failed to start task '" +:+ name t +:+ "':"
                               +:+ diagnostics res)),
     {| host := (powershell (run_script (name t)) h1).2;
        issued := issued w ++ [exists_script (name t); run_script (name t)] |}).
Proof.
  intros Hq h1 res. unfold run. rewrite bind_exists.
  apply Z.eqb_eq in Hq. rewrite Hq. cbn [negb].
  rewrite bind_run. cbn [host issued]. fold h1 res.
  rewrite <- app_assoc. clear Hq. destruct (returncode res =? 0); reflexivity.
Qed.

(** [create] with [overwrite] on a name the first query reports present:
    what is left is [delete], then the registration. *)
Lemma create_overwrite_after_query (t : PythonTask) (w : World Host) :
  returncode (powershell (exists_script (name t)) (host w)).1 = 0 ->
  let w1 := {| host := (powershell (exists_script (name t)) (host w)).2;
               issued := issued w ++ [exists_script (name t)] |} in
  create powershell _to_path_str now t true w
  = match delete powershell t w1 with
    | (Returns _, w3) =>
        let res := (powershell (_build_register _to_path_str now t) (host w3)).1 in
        (if returncode res =? 0 then Returns tt
         else Raises (TaskError ("Failed to register task '" +:+ name t +:+ "':"
                                   +:+ diagnostics res)),
         {| host := (powershell (_build_register _to_path_str now t) (host w3)).2;
            issued := issued w3 ++ [_build_register _to_path_str now t] |})
    | (Raises e, w3) => (Raises e, w3)
    end.
Proof.
  intros Hq w1. unfold create. rewrite bind_exists.
  apply Z.eqb_eq in Hq. rewrite Hq. cbn [negb]. fold w1.
  unfold bind at 1. destruct (delete powershell t w1) as [[[]|e] w3];
    [|reflexivity].
  rewrite bind_run. clear Hq. destruct (returncode _ =? 0); reflexivity.
Qed.

End ExitCodes.

(** X8. [create] with [overwrite] stops at a failed delete: when both
    existence queries exit with 0 and the unregister command exits with
    another code, [create] raises the [TaskError] of the delete, carrying
    the command's stripped error and output text, and no register command
    is issued. *)
Theorem failed_delete_stops_create
    (Host : Type) (powershell : string -> Host -> CompletedProcess * Host)
    (_to_path_str : string -> string) (now : datetime)
    (t : PythonTask) (w : World Host) :
  let h1 := (powershell (exists_script (name t)) (host w)).2 in
  let h2 := (powershell (exists_script (name t)) h1).2 in
  let res := (powershell (delete_script (name t)) h2).1 in
  returncode (powershell (exists_script (name t)) (host w)).1 = 0 ->
  returncode (powershell (exists_script (name t)) h1).1 = 0 ->
  returncode res <> 0 ->
  create powershell _to_path_str now t true w
  = (Raises (TaskError ("Failed to delete task '" +:+ name t +:+ "':"
                          +:+ char nl +:+ strip (stderr res)
                          +:+ char nl +:+ strip (stdout res))),
     {| host := (powershell (delete_script (name t)) h2).2;
        issued := issued w ++ [exists_script (name t); exists_script (name t);
                               delete_script (name t)] |}).
Proof.
  intros h1 h2 res Hq0 Hq1 Hu.
  rewrite create_overwrite_after_query by exact Hq0.
  rewrite delete_after_query by exact Hq1.
  cbn [host issued]. fold h1 h2 res.
  apply Z.eqb_neq in Hu. rewrite Hu. now rewrite <- app_assoc.
Qed.

Lemma failed_delete_stops_create_witness :
  create locked_powershell resolved tuesday_3_nov nightly_backup true
    {| host := tt; issued := [] |}
  = (Raises (TaskError ("Failed to delete task 'nightly-backup':"
                          +:+ char nl +:+ "Access is denied." +:+ char nl)),
     {| host := tt;
        issued := [exists_script "nightly-backup";
                   exists_script "nightly-backup";
                   delete_script "nightly-backup"] |}).
Proof.
  apply (failed_delete_stops_create unit locked_powershell resolved
           tuesday_3_nov nightly_backup {| host := tt; issued := [] |});
    vm_compute; (reflexivity || discriminate).
Defined.

(** X9. The check and the act are separate queries: when the first
    existence query exits with 0 and the second one, issued by [delete]
    inside [create], does not, [create] with [overwrite] raises
    [TaskNotFoundError] and issues neither an unregister nor a register
    command. *)
Theorem create_overwrite_can_raise_not_found
    (Host : Type) (powershell : string -> Host -> CompletedProcess * Host)
    (_to_path_str : string -> string) (now : datetime)
    (t : PythonTask) (w : World Host) :
  let h1 := (powershell (exists_script (name t)) (host w)).2 in
  returncode (powershell (exists_script (name t)) (host w)).1 = 0 ->
  returncode (powershell (exists_script (name t)) h1).1 <> 0 ->
  create powershell _to_path_str now t true w
  = (Raises (TaskNotFoundError ("Task '" +:+ name t +:+ "' not found")),
     {| host := (powershell (exists_script (name t)) h1).2;
        issued := issued w ++ [exists_script (name t); exists_script (name t)] |}).
Proof.
  intros h1 Hq0 Hq1.
  rewrite create_overwrite_after_query by exact Hq0.
  rewrite delete_on_absent by exact Hq1.
  cbn [host issued]. now rewrite <- app_assoc.
Qed.

Lemma create_overwrite_can_raise_not_found_witness :
  create vanishing_powershell resolved tuesday_3_nov nightly_backup true
    {| host := O; issued := [] |}
  = (Raises (TaskNotFoundError "Task 'nightly-backup' not found"),
     {| host := 2%nat;
        issued := [exists_script "nightly-backup";
                   exists_script "nightly-backup"] |}).
Proof.
  apply (create_overwrite_can_raise_not_found nat vanishing_powershell resolved
           tuesday_3_nov nightly_backup {| host := O; issued := [] |});
    vm_compute; (reflexivity || discriminate).
Defined.

(** X10. Overwriting is not atomic: when the queries and the unregister
    command exit with 0 and the register command does not, [create] with
    [overwrite] raises the [TaskError] of the registration after the
    unregister command has run, so the old registration is gone by then. *)
Theorem failed_register_after_delete
    (Host : Type) (powershell : string -> Host -> CompletedProcess * Host)
    (_to_path_str : string -> string) (now : datetime)
    (t : PythonTask) (w : World Host) :
  let h1 := (powershell (exists_script (name t)) (host w)).2 in
  let h2 := (powershell (exists_script (name t)) h1).2 in
  let h3 := (powershell (delete_script (name t)) h2).2 in
  let res := (powershell (_build_register _to_path_str now t) h3).1 in
  returncode (powershell (exists_script (name t)) (host w)).1 = 0 ->
  returncode (powershell (exists_script (name t)) h1).1 = 0 ->
  returncode (powershell (delete_script (name t)) h2).1 = 0 ->
  returncode res <> 0 ->
  create powershell _to_path_str now t true w
  = (Raises (TaskError ("Failed to register task '" +:+ name t +:+ "':"
                          +:+ char nl +:+ strip (stderr res)
                          +:+ char nl +:+ strip (stdout res))),
     {| host := (powershell (_build_register _to_path_str now t) h3).2;
        issued := issued w ++ [exists_script (name t); exists_script (name t);
                               delete_script (name t);
                               _build_register _to_path_str now t] |}).
Proof.
  intros h1 h2 h3 res Hq0 Hq1 Hu Hr.
  rewrite create_overwrite_after_query by exact Hq0.
  rewrite delete_after_query by exact Hq1.
  cbn [host issued]. fold h1 h2. apply Z.eqb_eq in Hu. rewrite Hu.
  cbn [host issued]. fold h3 res.
  apply Z.eqb_neq in Hr. rewrite Hr. now rewrite <- !app_assoc.
Qed.

Lemma failed_register_after_delete_witness :
  let after := (create no_register_powershell resolved tuesday_3_nov
                  nightly_backup true host_with_backup) in
  after.1
  = Raises (TaskError ("Failed to register task 'nightly-backup':"
                         +:+ char nl +:+ "Access is denied." +:+ char nl))
  /\ issued after.2
     = [exists_script "nightly-backup"; exists_script "nightly-backup";
        delete_script "nightly-backup";
        _build_register resolved tuesday_3_nov nightly_backup]
  /\ sim_present "nightly-backup" (host after.2) = false.
Proof.
  intros after. unfold after.
  rewrite (failed_register_after_delete (gset string) no_register_powershell
             resolved tuesday_3_nov nightly_backup host_with_backup);
    [ repeat split; vm_compute; reflexivity
    | vm_compute; reflexivity
    | vm_compute; reflexivity
    | vm_compute; reflexivity
    | vm_compute; discriminate ].
Defined.

(** X11. [run] on a task the existence query reports present issues the
    query and then one start command; it returns when that command exits
    with 0 and otherwise raises [TaskError] with the command's stripped
    error and output text. *)
Theorem run_starts_a_present_task
    (Host : Type) (powershell : string -> Host -> CompletedProcess * Host)
    (t : PythonTask) (w : World Host) :
  let h1 := (powershell (exists_script (name t)) (host w)).2 in
  let res := (powershell (run_script (name t)) h1).1 in
  returncode (powershell (exists_script (name t)) (host w)).1 = 0 ->
  issued (run powershell t w).2
  = issued w ++ [exists_script (name t); run_script (name t)]
  /\ (returncode res = 0 -> (run powershell t w).1 = Returns tt)
  /\ (returncode res <> 0 ->
      (run powershell t w).1
      = Raises (TaskError ("Failed to start task '" +:+ name t +:+ "':"
                             +:+ char nl +:+ strip (stderr res)
                             +:+ char nl +:+ strip (stdout res)))).
Proof.
  intros h1 res Hq. rewrite run_after_query by exact Hq.
  cbn [fst snd issued]. fold h1 res. repeat split.
  - intros Hr. apply Z.eqb_eq in Hr. now rewrite Hr.
  - intros Hr. apply Z.eqb_neq in Hr. now rewrite Hr.
Qed.

Lemma run_starts_a_present_task_witness :
  issued (run sim_powershell nightly_backup host_with_backup).2
  = issued host_with_backup
      ++ [exists_script (name nightly_backup); run_script (name nightly_backup)]
  /\ (run sim_powershell nightly_backup host_with_backup).1 = Returns tt.
Proof.
  destruct (run_starts_a_present_task (gset string) sim_powershell
              nightly_backup host_with_backup) as (Htrace & Hok & _).
  - vm_compute. reflexivity.
  - split; [exact Htrace|]. apply Hok. vm_compute. reflexivity.
Defined.

(** ** The module-level operations *)


(** The module-level [delete_task] on a host without the task: the
    unregister command is issued and it is its failure that is raised. *)
Example delete_task_on_absent :
  delete_task sim_powershell "ghost" empty_host
  = (Raises (TaskError ("Failed to delete task 'ghost':" +:+ char nl
                          +:+ "No task of that name" +:+ char nl)),
     {| host := ∅; issued := [delete_script "ghost"] |}).
Proof. vm_compute. reflexivity. Qed.

(** ** The listing *)

Section ListingFacts.

Lemma _passes_filters_spec
    (only_python : bool) (author name_contains : option string)
    (item : TaskItem) :
  _passes_filters only_python author name_contains item = true
  <-> author_matches author item
      /\ name_matches name_contains item
      /\ python_matches only_python item.
Proof.
  unfold _passes_filters, author_matches, name_matches, python_matches.
  rewrite <- contains_spec, <- any_python_action, <- String.eqb_eq.
  destruct (truthy author), (String.eqb _ _), (truthy name_contains),
    (contains _ _), only_python, (existsb _ _);
    cbn [andb negb]; intuition congruence.
Qed.

Lemma filter_all (A : Type) (f : A -> bool) (l : list A) :
  (forall x, f x = true) -> List.filter f l = l.
Proof.
  intros Hf. induction l as [|x l IH]; [reflexivity|].
  cbn [List.filter]. now rewrite Hf, IH.
Qed.

Lemma filter_sublist (A : Type) (f : A -> bool) (l : list A) :
  sublist (List.filter f l) l.
Proof.
  induction l as [|x l IH]; [constructor|].
  cbn [List.filter]. destruct (f x); now constructor.
Qed.

Lemma filter_sublist_mono (A : Type) (f g : A -> bool) (l : list A) :
  (forall x, f x = true -> g x = true) ->
  sublist (List.filter f l) (List.filter g l).
Proof.
  intros Hfg. induction l as [|x l IH]; [constructor|].
  cbn [List.filter]. destruct (f x) eqn:Hf.
  - rewrite (Hfg x Hf). now constructor.
  - destruct (g x); [now constructor | exact IH].
Qed.

End ListingFacts.


(** X14. A filter that is absent or the empty string is inactive: with no
    author, no name text and [only_python] off, every payload record is
    returned, normalised and in the payload's order. *)
Theorem inactive_filters_keep_everything
    (author name_contains : option string) (data : list TaskItem) :
  truthy author = false -> truthy name_contains = false ->
  list_tasks_of false author name_contains data = normalise <$> data.
Proof.
  intros Ha Hn. unfold list_tasks_of. apply filter_all.
  intros x. unfold _passes_filters. now rewrite Ha, Hn.
Qed.

Lemma inactive_filters_keep_everything_witness :
  list_tasks_of false (Some "") None
    [item_with [plain_program]; item_with [python_job]]
  = normalise <$> [item_with [plain_program]; item_with [python_job]].
Proof.
  apply (inactive_filters_keep_everything (Some "") None
           [item_with [plain_program]; item_with [python_job]]);
    reflexivity.
Defined.

(** X15. Filtering only drops records: the listing with [only_python] is a
    subsequence of the listing without it, which is a subsequence of the
    normalised payload; order is kept and nothing is added or repeated. *)
Theorem listing_is_a_subsequence
    (author name_contains : option string) (data : list TaskItem) :
  sublist (list_tasks_of true author name_contains data)
          (list_tasks_of false author name_contains data)
  /\ forall only_python,
       sublist (list_tasks_of only_python author name_contains data)
               (normalise <$> data).
Proof.
  split.
  - apply filter_sublist_mono. intros x.
    rewrite !_passes_filters_spec. unfold python_matches.
    intros (Ha & Hn & _). repeat split; try assumption. discriminate.
  - intros only_python. apply filter_sublist.
Qed.

Lemma listing_member_is_python
    (author name_contains : option string) (data : list TaskItem)
    (it : TaskItem) :
  it ∈ list_tasks_of true author name_contains data ->
  exists a, a ∈ Actions it /\ python_related a.
Proof.
  unfold list_tasks_of.
  rewrite list_elem_of_In, filter_In, _passes_filters_spec.
  intros (_ & _ & _ & Hp). now apply Hp.
Qed.

Section ListTasksFacts.

Lemma strip_blank (s : string) : strip s = "" <-> all_space s = true.
Proof.
  unfold strip. induction s as [|c s IH]; [easy|].
  cbn [lstrip all_space]. destruct (is_space c) eqn:Hc; cbn [andb].
  - exact IH.
  - split; [|discriminate]. cbn [rstrip]. rewrite Hc.
    now destruct (rstrip s).
Qed.

Context {Host : Type}.
Variable powershell : string -> Host -> CompletedProcess * Host.
Variable enumeration_script : string.
Variable json_loads : string -> option payload.

Lemma list_tasks_eq (only_python : bool) (author name_contains : option string)
    (w : World Host) :
  let res := (powershell enumeration_script (host w)).1 in
  list_tasks powershell enumeration_script json_loads only_python author
    name_contains w
  = (if negb (returncode res =? 0) then
       ListingRaised
         (TaskError ("Failed to list tasks: " +:+ strip (stderr res)
                       +:+ char nl +:+ strip (stdout res)))
     else
       match strip (stdout res) with
       | EmptyString => Listed []
       | String _ _ =>
           match json_loads (strip (stdout res)) with
           | None => DecodeError
           | Some (OneRecord it) =>
               Listed (list_tasks_of only_python author name_contains [it])
           | Some (Records its) =>
               Listed (list_tasks_of only_python author name_contains its)
           end
       end,
     {| host := (powershell enumeration_script (host w)).2;
        issued := issued w ++ [enumeration_script] |}).
Proof.
  intros res. unfold list_tasks. rewrite _run_powershell_eq. fold res.
  destruct (negb _); [reflexivity|].
  destruct (strip (stdout res)); [reflexivity|].
  now destruct (json_loads _) as [[]|].
Qed.

End ListTasksFacts.



(** X17. Every record that [list_python_tasks] returns has an action that
    launches Python, whatever [only_python] value the caller passed among
    the keyword arguments. *)
Theorem list_python_tasks_returns_python_tasks
    (Host : Type) (powershell : string -> Host -> CompletedProcess * Host)
    (enumeration_script : string) (json_loads : string -> option payload)
    (kwargs : list_kwargs) (w : World Host) (records : list TaskItem) :
  (list_python_tasks powershell enumeration_script json_loads kwargs w).1
  = Listed records ->
  Forall (fun it => exists a, a ∈ Actions it /\ python_related a) records.
Proof.
  unfold list_python_tasks. rewrite list_tasks_eq. cbn [fst].
  intros Hl. apply Forall_forall. intros it Hin.
  assert (Hsub : forall data,
            it ∈ list_tasks_of true (kw_author kwargs)
                   (kw_name_contains kwargs) data ->
            exists a, a ∈ Actions it /\ python_related a).
  { intros data Hit. apply listing_member_is_python in Hit. exact Hit. }
  destruct (negb _); [discriminate|].
  destruct (strip _); [injection Hl as <-; now apply elem_of_nil in Hin|].
  destruct (json_loads _) as [[one|its]|]; [| |discriminate];
    injection Hl as <-; eapply Hsub; exact Hin.
Qed.

Lemma list_python_tasks_returns_python_tasks_witness :
  Forall (fun it => exists a, a ∈ Actions it /\ python_related a)
    [normalise (item_with [plain_program; python_job])].
Proof.
  apply (list_python_tasks_returns_python_tasks unit
           (answering (blank_process "[...]")) "Get-ScheduledTask"
           (fixed_payload
              (Records [item_with [plain_program];
                        item_with [plain_program; python_job]]))
           {| kw_only_python := Some false; kw_author := None;
              kw_name_contains := None |}
           {| host := tt; issued := [] |}).
  vm_compute. reflexivity.
Defined.

(** ** Integers and their text *)

Section IntegerText.

Lemma code_points_uint (d : Decimal.uint) :
  code_points (NilEmpty.string_of_uint d) = Some (uint_codes d).
Proof.
  induction d as [|d IH|d IH|d IH|d IH|d IH|d IH|d IH|d IH|d IH|d IH];
    [reflexivity|..];
    cbn [NilEmpty.string_of_uint uint_codes];
    match goal with
    | |- code_points (String ?c ?r) = Some (?n :: _) =>
        change (code_points (String c r)) with (cons n <$> code_points r)
    end;
    now rewrite IH.
Qed.

Lemma uint_codes_are_digits (d : Decimal.uint) :
  forallb (fun c => existsb (within c) digit_characters) (uint_codes d) = true.
Proof.
  induction d; [reflexivity|..]; cbn [uint_codes forallb]; rewrite IHd;
    vm_compute; reflexivity.
Qed.

Lemma uint_codes_values (d : Decimal.uint) :
  mapM decimal_value (uint_codes d)
  = Some ((fun c => Z.of_N c - 48) <$> uint_codes d).
Proof.
  induction d as [|d IH|d IH|d IH|d IH|d IH|d IH|d IH|d IH|d IH|d IH];
    [reflexivity|..];
    cbn [uint_codes mapM fmap list_fmap]; rewrite IH; reflexivity.
Qed.

Local Abbreviation values d := ((fun c => Z.of_N c - 48) <$> uint_codes d).
Local Abbreviation step := (fun acc d => 10 * acc + d).

Lemma uint_codes_length (d : Decimal.uint) :
  length (uint_codes d) = String.length (NilEmpty.string_of_uint d).
Proof.
  induction d; [reflexivity|..];
    cbn [uint_codes NilEmpty.string_of_uint length String.length];
    now rewrite IHd.
Qed.

Lemma fold_uint_acc (d : Decimal.uint) (acc : positive) :
  foldl step (Z.pos acc) (values d) = Z.pos (Pos.of_uint_acc d acc).
Proof.
  revert acc.
  induction d as [|d IH|d IH|d IH|d IH|d IH|d IH|d IH|d IH|d IH|d IH];
    intros acc; [reflexivity|..];
    cbn [uint_codes fmap list_fmap foldl Pos.of_uint_acc];
    rewrite <- IH; f_equal; lia.
Qed.

Lemma fold_uint (d : Decimal.uint) :
  foldl step 0 (values d) = Z.of_N (Pos.of_uint d).
Proof.
  induction d as [|d IH|d IH|d IH|d IH|d IH|d IH|d IH|d IH|d IH|d IH];
    [reflexivity | exact IH |..];
    cbn [uint_codes fmap list_fmap foldl Pos.of_uint Z.of_N];
    rewrite <- fold_uint_acc; f_equal.
Qed.

(** The decimal text of a number: [isdigit] accepts it, and [int] reads the
    number back unless the text is longer than the limit. *)
Lemma uint_text (d : Decimal.uint) :
  d <> Decimal.Nil ->
  let text := NilEmpty.string_of_uint d in
  isdigit text = true
  /\ int text
     = if int_max_str_digits <? Z.of_nat (String.length text) then None
       else Some (Z.of_N (Pos.of_uint d)).
Proof.
  intros Hd text. unfold isdigit, int, text.
  rewrite code_points_uint. cbn [mbind option_bind].
  rewrite uint_codes_values. cbn [mbind option_bind].
  rewrite length_fmap, uint_codes_length, fold_uint.
  split.
  - pose proof (uint_codes_are_digits d) as H.
    destruct (uint_codes d) eqn:Hc; [now destruct d | exact H].
  - rewrite bool_decide_eq_false_2; [reflexivity|].
    now destruct d.
Qed.

Lemma str_int_text (n : Z) :
  0 <= n ->
  isdigit (str_int n) = true
  /\ int (str_int n)
     = if int_max_str_digits <? Z.of_nat (String.length (str_int n)) then None
       else Some n.
Proof.
  intros Hn. destruct n as [|p|p]; [split; vm_compute; reflexivity | | lia].
  unfold str_int. cbn [Z.to_int NilZero.string_of_int].
  pose proof (Unsigned.to_uint_nonnil p) as Hnil.
  pose proof (Unsigned.of_to p) as Hback.
  unfold NilZero.string_of_uint.
  destruct (uint_text (Pos.to_uint p) Hnil) as [Hd Hi].
  cbv zeta in Hi. rewrite Hback in Hi.
  destruct (Pos.to_uint p) eqn:Hu; [contradiction|..]; now split.
Qed.

Lemma str_int_negative (n : Z) :
  n < 0 -> isdigit (str_int n) = false.
Proof.
  intros Hn. destruct n as [|p|p]; [lia | lia |].
  unfold str_int. cbn [Z.to_int NilZero.string_of_int].
  unfold isdigit.
  change (code_points (String "-" ?r)) with (cons 45%N <$> code_points r).
  now destruct (code_points _).
Qed.

Lemma known_keys_nonneg (n : Z) : n < 0 -> known !! PyInt n = None.
Proof.
  intros Hn. apply not_elem_of_list_to_map_1.
  cbn [fmap list_fmap fst]. rewrite !not_elem_of_cons.
  repeat split; try (intros [= H]; lia). apply not_elem_of_nil.
Qed.

(** A string of digits is none of the status names. *)
Lemma digits_miss (x : string) :
  isdigit x = true -> mapping !! PyStr x = None.
Proof.
  intros Hd. apply mapping_miss; [discriminate|].
  intros y [= <-] Hin. apply mapping_hit_str in Hin as [Hnot _]. congruence.
Qed.

End IntegerText.

(** X20. Integer and text forms of a code.  A non-negative status or result
    normalises the same whether it arrives as an integer or as its decimal
    text, as long as the text has no more digits than [int] reads; decimal
    text with more digits is passed through as it stands.  A negative
    result renders as [Code -n] when it is an integer and is passed through
    as it stands when it is text, a minus sign not being a digit. *)
Theorem integer_and_text_forms (n : Z) :
  let digits := Z.of_nat (String.length (str_int n)) in
  (0 <= n -> digits <= int_max_str_digits ->
   map_status (PyStr (str_int n)) = map_status (PyInt n)
   /\ map_result (PyStr (str_int n)) = map_result (PyInt n))
  /\ (0 <= n -> int_max_str_digits < digits ->
      map_status (PyStr (str_int n)) = str_int n
      /\ map_result (PyStr (str_int n)) = str_int n)
  /\ (n < 0 ->
      map_result (PyInt n) = "Code " +:+ str_int n
      /\ map_result (PyStr (str_int n)) = str_int n).
Proof.
  intros digits. split; [|split].
  - intros Hn Hlen. destruct (str_int_text n Hn) as [Hd Hi].
    fold digits in Hi.
    rewrite (proj2 (Z.ltb_ge _ _) Hlen) in Hi.
    unfold map_status, map_result. now rewrite Hd, Hi.
  - intros Hn Hlen. destruct (str_int_text n Hn) as [Hd Hi].
    fold digits in Hi.
    rewrite (proj2 (Z.ltb_lt _ _) Hlen) in Hi.
    unfold map_status, map_result. rewrite Hd, Hi.
    cbn [dict_key fmap option_fmap option_map str].
    now rewrite (digits_miss _ Hd).
  - intros Hn. unfold map_result.
    rewrite (str_int_negative n Hn). cbn [dict_key str].
    now rewrite (known_keys_nonneg n Hn).
Qed.

Lemma integer_and_text_forms_witness :
  (map_status (PyStr (str_int 3)) = map_status (PyInt 3)
   /\ map_result (PyStr (str_int 267009)) = map_result (PyInt 267009))
  /\ (map_status (PyStr (str_int (10 ^ 4300))) = str_int (10 ^ 4300)
      /\ map_result (PyStr (str_int (10 ^ 4300))) = str_int (10 ^ 4300))
  /\ (map_result (PyInt (-5)) = "Code " +:+ str_int (-5)
      /\ map_result (PyStr (str_int (-5))) = str_int (-5)).
Proof.
  split; [|split].
  - destruct (integer_and_text_forms 3) as [Hpos _]. split.
    + apply Hpos; vm_compute; discriminate.
    + destruct (integer_and_text_forms 267009) as [Hpos' _].
      apply Hpos'; vm_compute; discriminate.
  - destruct (integer_and_text_forms (10 ^ 4300)) as (_ & Hlong & _).
    apply Hlong; vm_compute; (reflexivity || discriminate).
  - destruct (integer_and_text_forms (-5)) as (_ & _ & Hneg).
    apply Hneg. lia.
Defined.

(** ** Normalising what is normalised already *)

Section Renormalising.

Lemma mapping_values (k : py_value) (l : string) :
  mapping !! k = Some l -> l ∈ status_labels.
Proof.
  intros Hk. apply elem_of_list_to_map_2 in Hk.
  rewrite !elem_of_cons, elem_of_nil in Hk. unfold status_labels.
  repeat destruct Hk as [Hk|Hk]; try contradiction;
    injection Hk as _ ->; in_list.
Qed.

Lemma map_status_label (l : string) :
  l ∈ status_labels -> map_status (PyStr l) = l.
Proof.
  unfold status_labels. intros Hl.
  rewrite !elem_of_cons, elem_of_nil in Hl.
  repeat destruct Hl as [Hl|Hl]; try contradiction; subst l;
    vm_compute; reflexivity.
Qed.

(** Text that [isdigit] refuses and that is no status name is passed
    through. *)
Lemma map_status_plain (x : string) :
  isdigit x = false -> x ∉ canonical_status_names ->
  map_status (PyStr x) = x.
Proof.
  intros Hd Hx. unfold map_status. rewrite Hd. cbn [dict_key].
  rewrite mapping_miss; [reflexivity | discriminate |].
  now intros y [= <-].
Qed.

Lemma not_a_status_name (c : ascii) (r : string) :
  (c =? "R")%char = false -> (c =? "D")%char = false ->
  (c =? "Q")%char = false -> (c =? "U")%char = false ->
  String c r ∉ canonical_status_names.
Proof.
  intros HR HD HQ HU. unfold canonical_status_names.
  rewrite !not_elem_of_cons.
  repeat split; try (intros [= -> _]; discriminate).
  apply not_elem_of_nil.
Qed.

Lemma minus_text (rest : string) :
  isdigit (String "-" rest) = false
  /\ String "-" rest ∉ canonical_status_names.
Proof.
  split; [|now apply not_a_status_name].
  unfold isdigit.
  change (code_points (String "-" rest)) with (cons 45%N <$> code_points rest).
  now destruct (code_points rest).
Qed.

Lemma str_int_negative_text (n : Z) :
  n < 0 -> exists rest, str_int n = String "-" rest.
Proof.
  intros Hn. destruct n as [|p|p]; [lia | lia |]. now eexists.
Qed.

Lemma map_status_idem (v : py_value) :
  float_text v -> map_status (PyStr (map_status v)) = map_status v.
Proof.
  intros Hf. rewrite (map_status_eq v).
  destruct (mapping !! _) as [l|] eqn:Hl; cbn [default].
  - apply map_status_label. now apply mapping_values in Hl.
  - destruct v as [|b|n|f repr|x]; cbn [str status_number] in *.
    + vm_compute. reflexivity.
    + destruct b; vm_compute in Hl; discriminate Hl.
    + destruct (Z_lt_le_dec n 0) as [Hneg|Hpos].
      * destruct (str_int_negative_text n Hneg) as (rest & ->).
        apply map_status_plain; apply minus_text.
      * destruct (str_int_text n Hpos) as [Hd Hi].
        unfold map_status. rewrite Hd, Hi.
        destruct (_ <? _); cbn [dict_key str].
        -- now rewrite (digits_miss _ Hd).
        -- now rewrite Hl.
    + destruct Hf as [Hd Hx]. now apply map_status_plain.
    + rewrite map_status_eq. cbn [status_number str]. now rewrite Hl.
Qed.

Lemma known_values (k : py_value) (text : string) :
  known !! k = Some text -> map_result (PyStr text) = text.
Proof.
  intros Hk. apply elem_of_list_to_map_2 in Hk.
  rewrite !elem_of_cons, elem_of_nil in Hk.
  repeat destruct Hk as [Hk|Hk]; try contradiction;
    injection Hk as _ ->; vm_compute; reflexivity.
Qed.

Lemma map_result_plain (x : string) :
  isdigit x = false -> map_result (PyStr x) = x.
Proof. intros Hd. unfold map_result. now rewrite Hd. Qed.

Lemma code_text (s : string) : isdigit ("Code " +:+ s) = false.
Proof.
  unfold isdigit.
  change (code_points ("Code " +:+ s))
    with (cons 67%N <$> code_points ("ode " +:+ s)).
  now destruct (code_points _).
Qed.

Lemma map_result_of_code (n : Z) :
  let text := default ("Code " +:+ str_int n) (known !! PyInt n) in
  map_result (PyStr text) = text.
Proof.
  cbv zeta. destruct (known !! PyInt n) as [text|] eqn:Hk; cbn [default].
  - exact (known_values _ _ Hk).
  - apply map_result_plain, code_text.
Qed.

Lemma map_result_idem (v : py_value) :
  float_text v -> map_result (PyStr (map_result v)) = map_result v.
Proof.
  intros Hf. destruct (numeric_value v) as [n|] eqn:Hv.
  - rewrite (map_result_numeric v n Hv). apply map_result_of_code.
  - destruct v as [|b|m|f repr|x]; try discriminate.
    + vm_compute. reflexivity.
    + destruct b; vm_compute; reflexivity.
    + destruct Hf as [Hd _]. now apply map_result_plain.
    + assert (H : map_result (PyStr x) = x).
      { cbn [numeric_value] in Hv. unfold map_result.
        destruct (isdigit x); [rewrite Hv|]; reflexivity. }
      rewrite H. exact H.
Qed.

End Renormalising.

(** X19. Normalising is idempotent: the five status labels, the texts of
    the table of known codes, [Code n] and every passed-through text map to
    themselves, so a record normalised twice is the record normalised once.
    A float is taken with the text [str] prints for it, which is neither a
    string of digits nor a status name. *)
Theorem normalise_is_idempotent (it : TaskItem) :
  float_text (Status it) -> float_text (LastRunResult it) ->
  normalise (normalise it) = normalise it.
Proof.
  intros Hs Hr. unfold normalise.
  cbn [Name Status NextRunTime LastRunTime LastRunResult
       Author Created Description Triggers Actions].
  now rewrite map_status_idem, map_result_idem.
Qed.

Lemma normalise_is_idempotent_witness :
  normalise (normalise float_item) = normalise float_item.
Proof.
  apply (normalise_is_idempotent float_item);
    (split; [vm_compute; reflexivity|]);
    unfold canonical_status_names; rewrite !not_elem_of_cons;
    repeat split; try discriminate; apply not_elem_of_nil.
Defined.

(** ** The command line *)

Section ParseTime.

Lemma strptime_field_bound (bound : nat) (s : string) (n : nat) :
  (9 <= bound)%nat -> strptime_field bound s = Some n -> (n <= bound)%nat.
Proof.
  intros Hb. destruct s as [|a [|b [|c s]]]; cbn [strptime_field];
    try discriminate.
  - unfold is_digit_char. cbv zeta.
    destruct (48 <=? nat_of_ascii a)%nat eqn:H1; [|discriminate].
    destruct (nat_of_ascii a <=? 57)%nat eqn:H2; [|discriminate].
    cbn [andb]. intros [= <-].
    apply Nat.leb_le in H2. lia.
  - destruct (is_digit_char a && is_digit_char b); [|discriminate].
    cbv zeta. destruct (_ <=? bound)%nat eqn:Hle; [|discriminate].
    intros [= <-]. now apply Nat.leb_le in Hle.
Qed.

Lemma nat_of_digit (n : nat) : nat_of_ascii (digit n) = (48 + n mod 10)%nat.
Proof.
  unfold digit. apply nat_ascii_embedding.
  pose proof (Nat.mod_upper_bound n 10). lia.
Qed.

Lemma digit_is_digit (n : nat) : is_digit_char (digit n) = true.
Proof.
  unfold is_digit_char. rewrite nat_of_digit.
  pose proof (Nat.mod_upper_bound n 10).
  apply andb_true_iff. split; apply Nat.leb_le; lia.
Qed.

Lemma digit_not_colon (n : nat) : Ascii.eqb (digit n) ":" = false.
Proof.
  apply Ascii.eqb_neq. intros H. apply (f_equal nat_of_ascii) in H.
  rewrite nat_of_digit in H. pose proof (Nat.mod_upper_bound n 10).
  change (nat_of_ascii ":") with 58%nat in H. lia.
Qed.

Lemma split_colon_pad2 (h : nat) (rest : string) :
  split_colon (pad2 h +:+ ":" +:+ rest) = Some (pad2 h, rest).
Proof.
  unfold pad2, char. cbn [String.append split_colon].
  now rewrite !digit_not_colon.
Qed.

Lemma strptime_field_pad2 (bound n : nat) :
  (n <= bound)%nat -> (n < 100)%nat ->
  strptime_field bound (pad2 n) = Some n.
Proof.
  intros Hn Hb. unfold pad2, char, strptime_field.
  rewrite !digit_is_digit, !nat_of_digit. cbn [andb].
  assert (Hv : ((48 + (n / 10) mod 10 - 48) * 10 + (48 + n mod 10 - 48) = n)%nat).
  { rewrite (Nat.mod_small (n / 10) 10)
      by (apply Nat.Div0.div_lt_upper_bound; lia).
    pose proof (Nat.div_mod_eq n 10). lia. }
  rewrite Hv. now apply Nat.leb_le in Hn as ->.
Qed.

End ParseTime.

Lemma parse_time_reads_strftime_helper (t : time) :
  (hour t < 24)%nat -> (minute t < 60)%nat ->
  parse_time (strftime_HM t) = Some t.
Proof.
  intros Hh Hm. unfold parse_time, strftime_HM.
  rewrite split_colon_pad2. cbn [mbind option_bind].
  rewrite !strptime_field_pad2 by lia. cbn [mbind option_bind].
  now destruct t.
Qed.

(** X22. Every time of day comes back from its [%H:%M] text: for a time
    with hour below 24 and minute below 60, [parse_time] of the zero-padded
    text is that time. *)
Theorem parse_time_reads_strftime (t : time) :
  (hour t < 24)%nat -> (minute t < 60)%nat ->
  parse_time (strftime_HM t) = Some t.
Proof. apply parse_time_reads_strftime_helper. Qed.

Lemma parse_time_reads_strftime_witness :
  parse_time (strftime_HM {| hour := 2; minute := 30 |})
  = Some {| hour := 2; minute := 30 |}.
Proof.
  apply (parse_time_reads_strftime {| hour := 2; minute := 30 |});
    cbn; lia.
Defined.



Example parse_time_rejects :
  parse_time "24:00" = None /\ parse_time "12:60" = None
  /\ parse_time "12:00:00" = None /\ parse_time " 12:00" = None
  /\ parse_time "noon" = None /\ parse_time "" = None.
Proof. repeat split. Qed.

Section CommandLineFacts.

Context {Host : Type}.
Variable powershell : string -> Host -> CompletedProcess * Host.
Variable _to_path_str : string -> string.
Variable now : datetime.
Variable sys_executable : string.
Variable strptime_date : string -> option date.
Variable value_error_text : string -> string -> string.

Local Abbreviation cli :=
  (main powershell _to_path_str now sys_executable strptime_date
     value_error_text).

Lemma main_exists_eq (n : string) (w : World Host) :
  let rc := returncode (powershell (exists_script n) (host w)).1 in
  cli (CliExists n) w
  = ((if rc =? 0 then 0 else 1, [if rc =? 0 then "yes" else "no"]),
     {| host := (powershell (exists_script n) (host w)).2;
        issued := issued w ++ [exists_script n] |}).
Proof.
  intros rc. unfold main. rewrite exists_eq. cbn [name placeholder_task].
  reflexivity.
Qed.

(** Once the process starts, the sub-command of the section on starting the
    process is the [exists] branch of [main]. *)
Lemma start_main_exists_is_main
    (starts : string -> bool) (exception_text : builtin_exception -> string)
    (n : string) (w : World Host) :
  contains (char nul) n = false ->
  starts (exists_script n) = true ->
  Start.main_exists starts powershell sys_executable exception_text n w
  = (Completes (cli (CliExists n) w).1, (cli (CliExists n) w).2).
Proof.
  intros Hn Hs. rewrite main_exists_eq. unfold Start.main_exists.
  rewrite start_exists_started by assumption. now rewrite exists_eq.
Qed.

End CommandLineFacts.

(** X24. The [exists] sub-command, with the start of the process in the
    picture.  When the process is started, the command ends with exit code
    0 and prints [yes] if the existence script exits with 0, and ends with 1
    and prints [no] if it does not; the query is the only script issued.
    When the name holds a NUL character, the [ValueError] of
    [subprocess.run] is caught by [main], which prints its text and ends
    with exit code 2, nothing having run.  When the process cannot be
    started, the [OSError] is not caught and leaves [main]. *)
Theorem exists_command_exit_codes
    (Host : Type) (starts : string -> bool)
    (powershell : string -> Host -> CompletedProcess * Host)
    (sys_executable : string) (exception_text : builtin_exception -> string)
    (n : string) (w : World Host) :
  let out := Start.main_exists starts powershell sys_executable
               exception_text n w in
  let rc := returncode (powershell (exists_script n) (host w)).1 in
  (contains (char nul) n = true ->
   out = (Completes (2, [exception_text ValueError]), w))
  /\ (contains (char nul) n = false -> starts (exists_script n) = false ->
      out = (Propagates OSError, w))
  /\ (contains (char nul) n = false -> starts (exists_script n) = true ->
      out = (Completes (if rc =? 0 then 0 else 1,
                        [if rc =? 0 then "yes" else "no"]),
             {| host := (powershell (exists_script n) (host w)).2;
                issued := issued w ++ [exists_script n] |})).
Proof.
  intros out rc. unfold out, Start.main_exists.
  split; [|split].
  - intros Hn. now rewrite start_exists_null by exact Hn.
  - intros Hn Hs. now rewrite start_exists_not_started by assumption.
  - intros Hn Hs. rewrite start_exists_started by assumption.
    now rewrite exists_eq.
Qed.

Lemma exists_command_exit_codes_witness :
  Start.main_exists installed sim_powershell "C:\Python\python.exe"
    windows_text (name null_in_name) empty_host
  = (Completes (2, ["embedded null character"]), empty_host)
  /\ Start.main_exists not_installed sim_powershell "C:\Python\python.exe"
       windows_text "ghost" empty_host
     = (Propagates OSError, empty_host)
  /\ Start.main_exists installed sim_powershell "C:\Python\python.exe"
       windows_text "ghost" empty_host
     = (Completes
          (if returncode (sim_powershell (exists_script "ghost")
                            (host empty_host)).1 =? 0 then 0 else 1,
           [if returncode (sim_powershell (exists_script "ghost")
                             (host empty_host)).1 =? 0 then "yes" else "no"]),
        {| host := (sim_powershell (exists_script "ghost") (host empty_host)).2;
           issued := issued empty_host ++ [exists_script "ghost"] |}).
Proof.
  split; [|split].
  - apply (exists_command_exit_codes (gset string) installed sim_powershell
             "C:\Python\python.exe" windows_text (name null_in_name)
             empty_host).
    reflexivity.
  - apply (exists_command_exit_codes (gset string) not_installed
             sim_powershell "C:\Python\python.exe" windows_text "ghost"
             empty_host); reflexivity.
  - apply (exists_command_exit_codes (gset string) installed sim_powershell
             "C:\Python\python.exe" windows_text "ghost" empty_host);
      reflexivity.
Defined.

Example exists_command_on_the_reference_host :
  (Start.main_exists installed sim_powershell "C:\Python\python.exe"
     windows_text "ghost" empty_host).1
  = Completes (1, ["no"])
  /\ (Start.main_exists installed sim_powershell "C:\Python\python.exe"
        windows_text "nightly-backup" host_with_backup).1
     = Completes (0, ["yes"]).
Proof. split; vm_compute; reflexivity. Qed.



(** X26. [delete] and [run] from the command line on a task the existence
    query reports absent end with exit code 2, print [Task '<name>' not
    found], and issue the existence query only. *)
Theorem cli_on_absent_task
    (Host : Type) (powershell : string -> Host -> CompletedProcess * Host)
    (_to_path_str : string -> string) (now : datetime)
    (sys_executable : string) (strptime_date : string -> option date)
    (value_error_text : string -> string -> string)
    (n : string) (w : World Host) :
  let cli := main powershell _to_path_str now sys_executable strptime_date
               value_error_text in
  let after := {| host := (powershell (exists_script n) (host w)).2;
                  issued := issued w ++ [exists_script n] |} in
  returncode (powershell (exists_script n) (host w)).1 <> 0 ->
  cli (CliDelete n) w = ((2, ["Task '" +:+ n +:+ "' not found"]), after)
  /\ cli (CliRun n) w = ((2, ["Task '" +:+ n +:+ "' not found"]), after).
Proof.
  intros cli after Hrc. unfold cli, main. split.
  - rewrite delete_on_absent by exact Hrc. reflexivity.
  - rewrite run_on_absent by exact Hrc. reflexivity.
Qed.

Lemma cli_on_absent_task_witness :
  main sim_powershell resolved tuesday_3_nov "C:\Python\python.exe"
    (fun _ => None) (fun data fmt => "") (CliDelete "ghost") empty_host
  = ((2, ["Task 'ghost' not found"]),
     {| host := (sim_powershell (exists_script "ghost") ∅).2;
        issued := [exists_script "ghost"] |})
  /\ main sim_powershell resolved tuesday_3_nov "C:\Python\python.exe"
       (fun _ => None) (fun data fmt => "") (CliRun "ghost") empty_host
     = ((2, ["Task 'ghost' not found"]),
        {| host := (sim_powershell (exists_script "ghost") ∅).2;
           issued := [exists_script "ghost"] |}).
Proof.
  apply (cli_on_absent_task (gset string) sim_powershell resolved
           tuesday_3_nov "C:\Python\python.exe" (fun _ => None)
           (fun data fmt => "") "ghost" empty_host).
  vm_compute. discriminate.
Defined.

(** ** The interface's snapshot *)

(** X27. [get_tasks] keeps a snapshot: after a call that loaded the tasks,
    a second call with the same filter returns the same tasks without
    calling the loader, in whatever world it runs, and leaves the session
    state as it is; a call with the other filter value, or after the
    invalidate flag was set, calls the loader again. *)
Theorem get_tasks_reuses_the_snapshot
    (W : Type) (load_tasks : bool -> W -> option (list TaskItem) * W)
    (only_python : bool) (ss ss1 : session_state) (w w1 : W)
    (tasks : list TaskItem) :
  get_tasks load_tasks only_python ss w = (Some tasks, ss1, w1) ->
  (forall w2, get_tasks load_tasks only_python ss1 w2 = (Some tasks, ss1, w2))
  /\ (forall w2,
        (get_tasks load_tasks (negb only_python) ss1 w2).1.1
        = (load_tasks (negb only_python) w2).1)
  /\ (forall w2,
        (get_tasks load_tasks only_python
           {| tasks_snapshot := tasks_snapshot ss1;
              tasks_only_py := tasks_only_py ss1;
              invalidate_tasks := Some true |} w2).1.1
        = (load_tasks only_python w2).1).
Proof.
  intros Hfirst.
  assert (Hss1 : tasks_snapshot ss1 = Some tasks
                 /\ tasks_only_py ss1 = Some only_python
                 /\ invalidate_tasks ss1 <> Some true).
  { unfold get_tasks in Hfirst.
    destruct (bool_decide (tasks_snapshot ss = None)) eqn:H1;
      destruct (bool_decide (tasks_only_py ss = Some only_python)) eqn:H2;
      destruct (bool_decide (invalidate_tasks ss = Some true)) eqn:H3;
      cbn [orb negb] in Hfirst;
      try (destruct (load_tasks only_python w) as [[l|] w'];
           [injection Hfirst as <- <- <-; cbn; repeat split; discriminate
           | discriminate]).
    injection Hfirst as Hs <- <-.
    apply bool_decide_eq_true in H2. apply bool_decide_eq_false in H3.
    repeat split; assumption. }
  destruct Hss1 as (Hs & Ho & Hi). repeat split; intros w2; unfold get_tasks.
  - rewrite Hs, Ho.
    rewrite (bool_decide_eq_false_2 _ Hi).
    rewrite bool_decide_eq_false_2 by discriminate.
    rewrite bool_decide_eq_true_2 by reflexivity. reflexivity.
  - rewrite Hs, Ho.
    rewrite bool_decide_eq_false_2 by discriminate.
    rewrite (bool_decide_eq_false_2 (Some only_python = Some (negb only_python)))
      by (destruct only_python; discriminate).
    cbn [orb negb]. now destruct (load_tasks (negb only_python) w2) as [[l|] w'].
  - cbn [tasks_snapshot tasks_only_py invalidate_tasks].
    rewrite (bool_decide_eq_true_2 (Some true = Some true)) by reflexivity.
    rewrite orb_true_r.
    now destruct (load_tasks only_python w2) as [[l|] w'].
Qed.

Lemma get_tasks_reuses_the_snapshot_witness :
  get_tasks (counting_loader [item_with [python_job]]) true
    {| tasks_snapshot := Some [item_with [python_job]];
       tasks_only_py := Some true; invalidate_tasks := Some false |} 7%nat
  = (Some [item_with [python_job]],
     {| tasks_snapshot := Some [item_with [python_job]];
        tasks_only_py := Some true; invalidate_tasks := Some false |}, 7%nat).
Proof.
  destruct (get_tasks_reuses_the_snapshot nat
              (counting_loader [item_with [python_job]]) true fresh_session
              {| tasks_snapshot := Some [item_with [python_job]];
                 tasks_only_py := Some true; invalidate_tasks := Some false |}
              O 1%nat [item_with [python_job]]) as (Hreuse & _).
  - reflexivity.
  - apply Hreuse.
Defined.

(** ** What the builders and [create] never let through *)

(** X28. The one-time trigger quotes its date-time: with frequency [Once]
    the fragment is the fixed text around one quoted literal, which lexes
    back to the date, a space and the [at] text, whatever the [at] text
    holds. *)
Theorem once_trigger_reads_back (now : datetime) (t : PythonTask) :
  frequency t = "Once" ->
  named_command "$trigger = New-ScheduledTaskTrigger -Once -At (Get-Date "
    (_build_trigger now t)
  = Some (strftime_Ymd (match on t with OnDate d => d | _ => dt_date now end)
            +:+ " " +:+ at_str (at_ t)).
Proof.
  intros Hf. rewrite trigger_once by exact Hf.
  apply named_command_hit. discriminate.
Qed.

Lemma once_trigger_reads_back_witness :
  named_command "$trigger = New-ScheduledTaskTrigger -Once -At (Get-Date "
    (_build_trigger tuesday_3_nov
       (with_schedule "Once" (AtStr "12:00; Remove-Item C:\jobs") OnNone
          nightly_backup))
  = Some "2026-11-03 12:00; Remove-Item C:\jobs".
Proof.
  apply (once_trigger_reads_back tuesday_3_nov
           (with_schedule "Once" (AtStr "12:00; Remove-Item C:\jobs") OnNone
              nightly_backup)).
  reflexivity.
Defined.

Lemma register_is_no_unregister
    (_to_path_str : string -> string) (now : datetime) (t : PythonTask) :
  startswith "Unregister-ScheduledTask"
    (_build_register _to_path_str now t) = false.
Proof.
  rewrite _build_register_shape. unfold register_base.
  rewrite !append_assoc. reflexivity.
Qed.

